(** * housework_analysis: the task-record form and its CSV ingestion

    A shallow embedding of [src/scripts/main.py]: the Flask view
    [add_task_record], the CSV validator [process_csv], the extension test
    [allowed_file] and the three stored-procedure wrappers.

    The Python code talks to two pieces of ambient state, the SQLAlchemy
    session [db.session] and Flask's flashed messages.  Both are threaded
    explicitly through a small state-and-exception monad [M]: every call on
    the session is appended to a log, every [flash] to a message list, and a
    raised exception is an outcome of the computation.

    What lies outside the file is kept abstract or modelled as its library
    defines it: a call on the session succeeds or raises an
    [SQLAlchemyError], as the database decides ([fault]);
    [db.session.rollback()] and [flash] do not raise; decoding the upload
    and [pd.read_csv] are parameters; the WTForms validators of the form are
    the ones its class declares.  The stored procedures are opaque: the log
    records that they were called. *)

From Stdlib Require Import ZArith Ascii String.
From stdpp Require Import base option strings list gmap pretty.

Open Scope Z_scope.
Open Scope string_scope.
Open Scope list_scope.

(** ** Python values *)

(** The scalars that reach the code: CSV cells as pandas infers them (text,
    integers, floats including the [nan] of an empty cell), the date of the
    form and [None].  A float is kept as the text [str] gives for it. *)
Inductive value :=
| PyNone
| Str (s : string)
| Int (z : Z)
| Float (repr : string)
| Date (iso : string).

(** [str(v)], as an f-string renders a value. *)
Definition str (v : value) : string :=
  match v with
  | PyNone => "None"
  | Str s => s
  | Int z => pretty z
  | Float r => r
  | Date d => d
  end.

(** Truth value of an optional integer: [None] and [0] are false. *)
Definition truthy (o : option Z) : bool :=
  match o with
  | Some z => negb (Z.eqb z 0)
  | None => false
  end.

Definition of_optional (o : option Z) : value :=
  match o with
  | Some z => Int z
  | None => PyNone
  end.

(** ** Exceptions *)

(** Every class below derives from [Exception]; only the first one derives
    from [SQLAlchemyError]. *)
Inductive exn :=
| SQLAlchemyError (msg : string)
| KeyError (key : string)
| TypeError (msg : string)
| AttributeError (msg : string)
| UnicodeDecodeError (msg : string)
| ParserError (msg : string).

(** [str(e)]: a [KeyError] prints the repr of its key. *)
Definition str_exn (e : exn) : string :=
  match e with
  | SQLAlchemyError m => m
  | KeyError k => "'" +:+ k +:+ "'"
  | TypeError m => m
  | AttributeError m => m
  | UnicodeDecodeError m => m
  | ParserError m => m
  end.

Inductive outcome (A : Type) :=
| Returns (a : A)
| Raises (e : exn).
Arguments Returns {A} a.
Arguments Raises {A} e.

(** ** Models (the three tables) *)

Record Person := mkPerson { person_pk : Z; person_name : string }.
Record Task := mkTask { task_pk : Z; task_name : string }.

(** [TaskRecord] is built with whatever the caller passes: the CSV path
    hands over raw cells for [date] and [task_duration_minutes]. *)
Record TaskRecord := mkTaskRecord {
  date : value;
  person_id : value;
  task_id : value;
  task_duration_minutes : value
}.

(** ** The session log and the flashed messages *)

Inductive db_call :=
| query_all (tablename : string)
| execute (sql : string)
| add (record : TaskRecord)
| bulk_save_objects (records : list TaskRecord)
| commit
| rollback.

(** A call together with the message of the [SQLAlchemyError] it raised,
    if it raised one. *)
Definition db_event : Type := db_call * option string.

Inductive category := success | warning | danger.

Definition message : Type := category * string.

Record World := mkWorld {
  calls : list db_event;
  flashes : list message
}.

(** The database as the request sees it: the two reference tables, and for
    the n-th call issued on the session whether it raises. *)
Record Database := mkDatabase {
  dim_person : list Person;
  dim_task : list Task;
  fault : nat -> option string
}.

(** ** The monad *)

Definition M (A : Type) : Type := World -> outcome A * World.

Definition ret {A} (a : A) : M A := fun w => (Returns a, w).

Definition bind {A B} (m : M A) (k : A -> M B) : M B :=
  fun w =>
    match m w with
    | (Returns a, w') => k a w'
    | (Raises e, w') => (Raises e, w')
    end.

Definition raise {A} (e : exn) : M A := fun w => (Raises e, w).

(** [try: body except ... as e: handler e]; a handler re-raises what its
    [except] clauses do not match. *)
Definition try_except {A} (body : M A) (handler : exn -> M A) : M A :=
  fun w =>
    match body w with
    | (Returns a, w') => (Returns a, w')
    | (Raises e, w') => handler e w'
    end.

Declare Scope py_scope.
Delimit Scope py_scope with py.
Notation "x <- m ;; k" := (bind m (fun x => k))
  (at level 100, m at next level, right associativity) : py_scope.
Notation "m ;;; k" := (bind m (fun _ => k))
  (at level 100, right associativity) : py_scope.
Open Scope py_scope.

Definition flash (text : string) (c : category) : M unit :=
  fun w => (Returns tt, mkWorld (calls w) (flashes w ++ [(c, text)])).

Definition log_call (ev : db_event) (w : World) : World :=
  mkWorld (calls w ++ [ev]) (flashes w).

(** ** Strings *)

Definition lower_ascii (c : Ascii.ascii) : Ascii.ascii :=
  let n := nat_of_ascii c in
  if ((65 <=? n)%nat && (n <=? 90)%nat)%bool then ascii_of_nat (n + 32) else c.

(** [s.lower()].  Bytes outside ASCII are left alone; no character outside
    ASCII lowers to one of [c], [s], [v], so the comparison with ['csv']
    below is not affected. *)
Fixpoint lower (s : string) : string :=
  match s with
  | EmptyString => EmptyString
  | String c r => String (lower_ascii c) (lower r)
  end.

(** ['.' in s] *)
Fixpoint contains_dot (s : string) : bool :=
  match s with
  | EmptyString => false
  | String c r => if Ascii.eqb c "." then true else contains_dot r
  end.

(** The two parts of [s] around its last ['.'], if it has one. *)
Fixpoint split_last_dot (s : string) : option (string * string) :=
  match s with
  | EmptyString => None
  | String c r =>
      match split_last_dot r with
      | Some (h, t) => Some (String c h, t)
      | None => if Ascii.eqb c "." then Some (EmptyString, r) else None
      end
  end.

(** [s.rsplit('.', 1)] *)
Definition rsplit_dot_1 (s : string) : list string :=
  match split_last_dot s with
  | Some (h, t) => [h; t]
  | None => [s]
  end.

Definition allowed_file (filename : string) : bool :=
  contains_dot filename &&
  match rsplit_dot_1 filename !! 1%nat with
  | Some ext => bool_decide (lower ext ∈ ["csv"])
  | None => false
  end.

(** ** The uploaded file, the parsed frame, the form *)

Record FileStorage := mkFileStorage {
  filename : string;
  stream : string
}.

(** One row as [df.iterrows()] yields it: column label and cell. *)
Definition Series : Type := list (string * value).

Definition DataFrame : Type := list Series.

Fixpoint lookup_label (label : string) (row : Series) : option value :=
  match row with
  | [] => None
  | (l, v) :: rest => if String.eqb l label then Some v else lookup_label label rest
  end.

(** [row[label]] *)
Definition getitem (row : Series) (label : string) : M value :=
  match lookup_label label row with
  | Some v => ret v
  | None => raise (KeyError label)
  end.

(** [d.get(key)] on a dictionary keyed by names: a cell that is not text
    equals no key. *)
Definition dict_get (d : gmap string Z) (key : value) : option Z :=
  match key with
  | Str s => d !! s
  | _ => None
  end.

Inductive http_method := GET | POST.

(** The request as it reaches the view, with each field as WTForms binds it
    to [form.<field>.data].  An [IntegerField] or a [SelectField] with
    [coerce=int] holds [None] when the submitted text is not an integer; a
    minutes field that is not submitted at all holds its default, 0.  The
    file is the attached [FileStorage], if any; [csrf_valid] is the outcome
    of the form's CSRF check. *)
Record Request := mkRequest {
  method : http_method;
  form_action : option string;
  csrf_valid : bool;
  posted_date : option string;
  posted_person : option Z;
  posted_task : option Z;
  posted_minutes : option Z;
  posted_file : option FileStorage
}.

Record TaskRecordForm := mkForm {
  request : Request;
  person_choices : list (Z * string);
  task_choices : list (Z * string)
}.

Inductive Response :=
| Redirect (endpoint : string)
| Render (template : string) (form : TaskRecordForm).

(** *** The validators of [TaskRecordForm]

    [validate] runs, for each field, the checks the class declares for it
    (lines 169-175 of the source), as WTForms and Flask-WTF define them. *)

(** [DataRequired] accepts data that is truthy. *)
Definition DataRequired_int (data : option Z) : bool := truthy data.

Definition DataRequired_date (data : option string) : bool :=
  match data with
  | Some _ => true
  | None => false
  end.

(** A [SelectField] accepts a value that is one of its choices. *)
Definition valid_choice (choices : list (Z * string)) (data : option Z) : bool :=
  match data with
  | Some z => existsb (fun c => Z.eqb (fst c) z) choices
  | None => false
  end.

Definition endswith (s suffix : string) : bool :=
  let n := String.length s in
  let k := String.length suffix in
  ((k <=? n)%nat && String.eqb (String.substring (n - k) k s) suffix)%bool.

(** Truth value of a [FileStorage]: that of its file name. *)
Definition truthy_file (f : option FileStorage) : bool :=
  match f with
  | Some fs => negb (String.eqb (filename fs) "")
  | None => false
  end.

(** [FileAllowed(['csv'])] passes when there is no file. *)
Definition FileAllowed_csv (f : option FileStorage) : bool :=
  match f with
  | Some fs => negb (truthy_file f) || endswith (lower (filename fs)) ".csv"
  | None => true
  end.

Definition validate (form : TaskRecordForm) : bool :=
  let r := request form in
  csrf_valid r
  && DataRequired_date (posted_date r)
  && (valid_choice (person_choices form) (posted_person r)
      && DataRequired_int (posted_person r))
  && (valid_choice (task_choices form) (posted_task r)
      && DataRequired_int (posted_task r))
  && DataRequired_int (posted_minutes r)
  && FileAllowed_csv (posted_file r).

Definition is_submitted (r : Request) : bool :=
  match method r with
  | POST => true
  | GET => false
  end.

Definition validate_on_submit (form : TaskRecordForm) : bool :=
  is_submitted (request form) && validate form.

(** [data <= 0]: comparing [None] with an integer raises. *)
Definition le_zero (data : option Z) : M bool :=
  match data with
  | Some z => ret (z <=? 0)%Z
  | None =>
      raise (TypeError
        "'<=' not supported between instances of 'NoneType' and 'int'")
  end.

Definition action_is (action : option string) (name : string) : bool :=
  match action with
  | Some a => String.eqb a name
  | None => false
  end.

(** ** The application *)

Section App.

(** The database behind [db], and the two library calls that turn the
    uploaded bytes into a frame: [bytes.decode('utf-8')] and [pd.read_csv],
    each giving its result or the text of the exception it raises. *)
Variable db : Database.
Variable decode_utf8 : string -> string + string.
Variable read_csv : string -> DataFrame + string.

(** A call on [db.session]; the database decides whether it raises. *)
Definition session_call (c : db_call) : M unit :=
  fun w =>
    match fault db (length (calls w)) with
    | None => (Returns tt, log_call (c, None) w)
    | Some msg => (Raises (SQLAlchemyError msg), log_call (c, Some msg) w)
    end.

(** [db.session.rollback()], taken not to raise. *)
Definition session_rollback : M unit :=
  fun w => (Returns tt, log_call (rollback, None) w).

Definition Person_query_all : M (list Person) :=
  session_call (query_all "dim_person");;;
  ret (dim_person db).

Definition Task_query_all : M (list Task) :=
  session_call (query_all "dim_task");;;
  ret (dim_task db).

Definition truncate_postgres_tbl (tbl_name : string) : M unit :=
  try_except
    (if String.eqb tbl_name "stg_fact_housework_tasks" then
       session_call (execute "CALL truncate_stg_fact_housework_tasks();");;;
       session_call commit;;;
       flash "Successfully truncated stg_fact_housework_tasks!" success
     else
       flash ("Invalid table name: " +:+ tbl_name) danger)
    (fun e =>
       match e with
       | SQLAlchemyError _ =>
           session_rollback;;;
           flash ("Error while truncate stg_fact_housework_tasks: " +:+ str_exn e) danger
       | _ => raise e
       end).

Definition populate_fact_housework_tasks : M unit :=
  try_except
    (session_call (execute "CALL populate_fact_housework_tasks();");;;
     session_call commit;;;
     flash "Successfully populated fact_housework_tasks!" success)
    (fun e =>
       match e with
       | SQLAlchemyError _ =>
           session_rollback;;;
           flash ("Error while populate fact_housework_tasks: " +:+ str_exn e) danger
       | _ => raise e
       end).

Definition backfill_agg_daily_housework_tasks : M unit :=
  try_except
    (session_call (execute "CALL backfill_agg_daily_housework_tasks();");;;
     session_call commit;;;
     flash "Successfully backfilling agg_daily_housework_tasks!" success)
    (fun e =>
       match e with
       | SQLAlchemyError _ =>
           session_rollback;;;
           flash ("Error while backfilling agg_daily_housework_tasks: " +:+ str_exn e) danger
       | _ => raise e
       end).

(** [{p.name: p.id for p in rows}]: a later row with the same name wins. *)
Definition persons_dict (rows : list Person) : gmap string Z :=
  fold_left (fun d p => <[person_name p := person_pk p]> d) rows ∅.

Definition tasks_dict (rows : list Task) : gmap string Z :=
  fold_left (fun d t => <[task_name t := task_pk t]> d) rows ∅.

(** The body of the [for index, row in df.iterrows()] loop; [continue]
    hands the list back unchanged. *)
Definition validate_row (persons tasks : gmap string Z) (row : Series)
    (task_records : list TaskRecord) : M (list TaskRecord) :=
  p <- getitem row "Person";;
  let person_id := dict_get persons p in
  t <- getitem row "Task";;
  let task_id := dict_get tasks t in
  if negb (truthy person_id) then
    p' <- getitem row "Person";;
    flash ("Person '" +:+ str p' +:+ "' not found in database.") danger;;;
    ret task_records
  else if negb (truthy task_id) then
    t' <- getitem row "Task";;
    flash ("Task '" +:+ str t' +:+ "' not found in database.") danger;;;
    ret task_records
  else
    d <- getitem row "Date";;
    m <- getitem row "Task Duration Minutes";;
    ret (task_records ++
         [mkTaskRecord d (of_optional person_id) (of_optional task_id) m]).

(** The loop itself, over the rows in order. *)
Fixpoint iterrows (persons tasks : gmap string Z) (df : DataFrame)
    (task_records : list TaskRecord) : M (list TaskRecord) :=
  match df with
  | [] => ret task_records
  | row :: rest =>
      task_records' <- validate_row persons tasks row task_records;;
      iterrows persons tasks rest task_records'
  end.

Definition lift_decode (r : string + string) : M string :=
  match r with
  | inl text => ret text
  | inr msg => raise (UnicodeDecodeError msg)
  end.

Definition lift_read_csv (r : DataFrame + string) : M DataFrame :=
  match r with
  | inl df => ret df
  | inr msg => raise (ParserError msg)
  end.

(** The [try] block of [process_csv]. *)
Definition process_csv_try (csv_file : FileStorage) : M unit :=
  person_rows <- Person_query_all;;
  let persons := persons_dict person_rows in
  task_rows <- Task_query_all;;
  let tasks := tasks_dict task_rows in
  content <- lift_decode (decode_utf8 (stream csv_file));;
  df <- lift_read_csv (read_csv content);;
  task_records <- iterrows persons tasks df [];;
  match task_records with
  | _ :: _ =>
      session_call (bulk_save_objects task_records);;;
      session_call commit;;;
      flash ("Successfully inserted " +:+ pretty (length task_records)
             +:+ " task records.") success
  | [] => flash "No valid task records to insert." warning
  end.

Definition process_csv (csv_file : FileStorage) : M unit :=
  try_except (process_csv_try csv_file)
    (fun e =>
       match e with
       | SQLAlchemyError _ =>
           session_rollback;;;
           flash ("Error processing CSV: " +:+ str_exn e) danger
       | _ => flash ("Unexpected error: " +:+ str_exn e) danger
       end).

Definition choices_of_persons (rows : list Person) : list (Z * string) :=
  map (fun p => (person_pk p, person_name p)) rows.

Definition choices_of_tasks (rows : list Task) : list (Z * string) :=
  map (fun t => (task_pk t, task_name t)) rows.

(** The view.  An exception that leaves it is the request failing. *)
Definition add_task_record (req : Request) : M Response :=
  person_rows <- Person_query_all;;
  task_rows <- Task_query_all;;
  let form := mkForm req (choices_of_persons person_rows)
                         (choices_of_tasks task_rows) in
  match method req with
  | POST =>
      let action := form_action req in
      if action_is action "submit_record" && validate_on_submit form then
        truncate_postgres_tbl "stg_fact_housework_tasks";;;
        let record := mkTaskRecord
                        (from_option Date PyNone (posted_date req))
                        (of_optional (posted_person req))
                        (of_optional (posted_task req))
                        (of_optional (posted_minutes req)) in
        session_call (add record);;;
        session_call commit;;;
        flash "Task record added successfully!" success;;;
        populate_fact_housework_tasks;;;
        backfill_agg_daily_housework_tasks;;;
        ret (Redirect "add_task_record")
      else if action_is action "upload_csv" && truthy_file (posted_file req) then
        truncate_postgres_tbl "stg_fact_housework_tasks";;;
        match posted_file req with
        | Some csv_file =>
            if negb (allowed_file (filename csv_file)) then
              flash "Please upload a valid CSV file." danger;;;
              ret (Redirect "add_task_record")
            else
              process_csv csv_file;;;
              flash "CSV file processed successfully!" success;;;
              populate_fact_housework_tasks;;;
              backfill_agg_daily_housework_tasks;;;
              ret (Redirect "add_task_record")
        | None => raise (AttributeError "'NoneType' object has no attribute 'filename'")
        end
      else
        flash "Invalid action or form submission." danger;;;
        nonpositive <- le_zero (posted_minutes req);;
        (if nonpositive && action_is action "submit_record" then
           flash "Minutes field should be greater than 0." danger
         else ret tt);;;
        ret (Render "task_record_form.html" form)
  | GET => ret (Render "task_record_form.html" form)
  end.

End App.

(** * Specification vocabulary *)

(** The world after more flashes, after more session calls. *)
Definition flashed (w : World) (ms : list message) : World :=
  mkWorld (calls w) (flashes w ++ ms).

Definition called (w : World) (evs : list db_event) : World :=
  mkWorld (calls w ++ evs) (flashes w).

(** The spec's reading of a row: its name is present in the mapping. *)
Definition name_in (d : gmap string Z) (cell : option value) : bool :=
  match cell with
  | Some (Str s) => bool_decide (is_Some (d !! s))
  | _ => false
  end.


(** The four columns of the documented CSV format. *)
Definition has_columns (row : Series) : bool :=
  forallb (fun label => bool_decide (is_Some (lookup_label label row)))
          ["Date"; "Person"; "Task"; "Task Duration Minutes"].

(** [rec] is the staging record of [row]: the resolved ids, the literal
    date and the literal duration. *)
Definition is_record_of (persons tasks : gmap string Z) (row : Series)
    (rec : TaskRecord) : Prop :=
  ∃ p t pid tid,
    lookup_label "Person" row = Some (Str p) ∧ persons !! p = Some pid ∧
    lookup_label "Task" row = Some (Str t) ∧ tasks !! t = Some tid ∧
    lookup_label "Date" row = Some (date rec) ∧
    lookup_label "Task Duration Minutes" row = Some (task_duration_minutes rec) ∧
    person_id rec = Int pid ∧ task_id rec = Int tid.

Definition person_not_found (p : value) : message :=
  (danger, "Person '" +:+ str p +:+ "' not found in database.").

Definition task_not_found (t : value) : message :=
  (danger, "Task '" +:+ str t +:+ "' not found in database.").

(** A per-row diagnostic: one of the two not-found messages. *)
Definition is_not_found (m : message) : Prop :=
  ∃ cell, m = person_not_found cell ∨ m = task_not_found cell.

(** No call fails. *)
Definition healthy (db : Database) : Prop := ∀ n, fault db n = None.

(** The two reference queries issued from world [w] on do not fail. *)
Definition reference_queries_ok (db : Database) (w : World) : Prop :=
  fault db (length (calls w)) = None ∧ fault db (S (length (calls w))) = None.

Definition is_execute (ev : db_event) : bool :=
  match fst ev with
  | execute _ => true
  | _ => false
  end.

(** One stored procedure inside its own transaction: called and committed,
    or rolled back after the call or the commit failed. *)
Inductive boundary (sql : string) : list db_event -> Prop :=
| boundary_committed :
    boundary sql [(execute sql, None); (commit, None)]
| boundary_call_failed msg :
    boundary sql [(execute sql, Some msg); (rollback, None)]
| boundary_commit_failed msg :
    boundary sql [(execute sql, None); (commit, Some msg); (rollback, None)].

(** What the loop does with one row, when the row has its columns: the
    record it appends and the message it flashes. *)
Definition row_record (persons tasks : gmap string Z) (row : Series)
    : list TaskRecord :=
  match lookup_label "Person" row, lookup_label "Task" row,
        lookup_label "Date" row, lookup_label "Task Duration Minutes" row with
  | Some p, Some t, Some d, Some m =>
      if truthy (dict_get persons p) && truthy (dict_get tasks t) then
        [mkTaskRecord d (of_optional (dict_get persons p))
                        (of_optional (dict_get tasks t)) m]
      else []
  | _, _, _, _ => []
  end.

Definition row_message (persons tasks : gmap string Z) (row : Series)
    : list message :=
  match lookup_label "Person" row, lookup_label "Task" row with
  | Some p, Some t =>
      if negb (truthy (dict_get persons p)) then [person_not_found p]
      else if negb (truthy (dict_get tasks t)) then [task_not_found t]
      else []
  | _, _ => []
  end.

(** A row resolves when both looked-up ids pass the test the loop makes. *)
Definition resolves (persons tasks : gmap string Z) (row : Series) : bool :=
  match lookup_label "Person" row, lookup_label "Task" row with
  | Some p, Some t => truthy (dict_get persons p) && truthy (dict_get tasks t)
  | _, _ => false
  end.

Definition has_label (label : string) (row : Series) : bool :=
  bool_decide (is_Some (lookup_label label row)).

(** A request that reaches an ingestion step: a manual record that
    validates, or an upload whose file name is allowed. *)
Definition ingestion_request (db : Database) (req : Request) : bool :=
  let form := mkForm req (choices_of_persons (dim_person db))
                         (choices_of_tasks (dim_task db)) in
  match method req with
  | POST =>
      (action_is (form_action req) "submit_record" && validate form)
      || (action_is (form_action req) "upload_csv"
          && truthy_file (posted_file req)
          && match posted_file req with
             | Some f => allowed_file (filename f)
             | None => false
             end)
  | GET => false
  end.

Definition sql_truncate := "CALL truncate_stg_fact_housework_tasks();".
Definition sql_populate := "CALL populate_fact_housework_tasks();".
Definition sql_backfill := "CALL backfill_agg_daily_housework_tasks();".

Definition reference_queries : list db_event :=
  [(query_all "dim_person", None); (query_all "dim_task", None)].

(** What [process_csv] can leave behind: the calls it adds to the session
    log and the message it ends with. *)
Inductive csv_outcome : list db_event -> message -> Prop :=
| csv_person_query_failed msg :
    csv_outcome [(query_all "dim_person", Some msg); (rollback, None)]
                (danger, "Error processing CSV: " +:+ msg)
| csv_task_query_failed msg :
    csv_outcome [(query_all "dim_person", None);
                 (query_all "dim_task", Some msg); (rollback, None)]
                (danger, "Error processing CSV: " +:+ msg)
| csv_unexpected text :
    csv_outcome reference_queries (danger, "Unexpected error: " +:+ text)
| csv_no_valid_record :
    csv_outcome reference_queries
                (warning, "No valid task records to insert.")
| csv_insert_failed records msg :
    records ≠ [] ->
    csv_outcome (reference_queries
                 ++ [(bulk_save_objects records, Some msg); (rollback, None)])
                (danger, "Error processing CSV: " +:+ msg)
| csv_commit_failed records msg :
    records ≠ [] ->
    csv_outcome (reference_queries
                 ++ [(bulk_save_objects records, None); (commit, Some msg);
                     (rollback, None)])
                (danger, "Error processing CSV: " +:+ msg)
| csv_inserted records :
    records ≠ [] ->
    csv_outcome (reference_queries
                 ++ [(bulk_save_objects records, None); (commit, None)])
                (success, "Successfully inserted "
                          +:+ pretty (length records) +:+ " task records.").

(** The column whose absence stops the loop at [row]: Person, then Task,
    are read for every row; Date, then the duration, only for a row that
    resolves. *)
Inductive lacks_column (persons tasks : gmap string Z) (row : Series)
    : string -> Prop :=
| lacks_person :
    lookup_label "Person" row = None ->
    lacks_column persons tasks row "Person"
| lacks_task :
    has_label "Person" row = true ->
    lookup_label "Task" row = None ->
    lacks_column persons tasks row "Task"
| lacks_date :
    resolves persons tasks row = true ->
    lookup_label "Date" row = None ->
    lacks_column persons tasks row "Date"
| lacks_minutes :
    resolves persons tasks row = true ->
    has_label "Date" row = true ->
    lookup_label "Task Duration Minutes" row = None ->
    lacks_column persons tasks row "Task Duration Minutes".

(** What one stored-procedure wrapper can leave behind: its calls and its
    message, given the text it prints before a failure. *)
Inductive procedure_outcome (sql done_text failed_text : string)
    : list db_event -> message -> Prop :=
| procedure_done :
    procedure_outcome sql done_text failed_text
      [(execute sql, None); (commit, None)] (success, done_text)
| procedure_call_failed msg :
    procedure_outcome sql done_text failed_text
      [(execute sql, Some msg); (rollback, None)]
      (danger, failed_text +:+ msg)
| procedure_commit_failed msg :
    procedure_outcome sql done_text failed_text
      [(execute sql, None); (commit, Some msg); (rollback, None)]
      (danger, failed_text +:+ msg).

(** ** Sample data *)

Definition no_faults : nat -> option string := fun _ => None.

Definition sample_db : Database :=
  mkDatabase [mkPerson 1 "Alice"] [mkTask 1 "Dishes"] no_faults.

(** A database whose only person has id 0. *)
Definition zero_db : Database :=
  mkDatabase [mkPerson 0 "Alice"] [mkTask 1 "Dishes"] no_faults.

(** A database that fails the n-th call of the request and no other. *)
Definition failing_at (n : nat) (msg : string) : Database :=
  mkDatabase [mkPerson 1 "Alice"] [mkTask 1 "Dishes"]
             (fun k => if Nat.eqb k n then Some msg else None).

Definition csv_row (d p t m : value) : Series :=
  [("Date", d); ("Person", p); ("Task", t); ("Task Duration Minutes", m)].

Definition alice_row : Series :=
  csv_row (Str "2024-01-01") (Str "Alice") (Str "Dishes") (Int 15).

Definition bob_row : Series :=
  csv_row (Str "2024-01-01") (Str "Bob") (Str "Dishes") (Int 10).

Definition alice_laundry_row : Series :=
  csv_row (Str "2024-01-01") (Str "Alice") (Str "Laundry") (Int 20).

Definition sample_decode (bytes : string) : string + string := inl bytes.

(** A stand-in for [pd.read_csv].  The contents it knows are labels that
    name a frame or a parser failure, not CSV text. *)
Definition sample_read_csv (content : string) : DataFrame + string :=
  if String.eqb content "two rows" then inl [alice_row; bob_row]
  else if String.eqb content "alice" then inl [alice_row]
  else if String.eqb content "bob" then inl [bob_row]
  else if String.eqb content "laundry" then inl [alice_laundry_row]
  else if String.eqb content "" then inl []
  else inr "No columns to parse from file".

Definition empty_world : World := mkWorld [] [].

Definition upload_request (name content : string) : Request :=
  mkRequest POST (Some "upload_csv") true None None None (Some 0)
            (Some (mkFileStorage name content)).

Definition submit_request (minutes : option Z) : Request :=
  mkRequest POST (Some "submit_record") true (Some "2024-01-01")
            (Some 1) (Some 1) minutes None.

Definition other_request (action : option string) (minutes : option Z) : Request :=
  mkRequest POST action true (Some "2024-01-01") (Some 1) (Some 1) minutes None.

(** Stand-ins for [pd.read_csv] that give one frame, or fail. *)
Definition read_frame (df : DataFrame) (content : string) : DataFrame + string :=
  inl df.

Definition read_failure (msg : string) (content : string) : DataFrame + string :=
  inr msg.

(** A row whose Date cell is missing. *)
Definition undated_row : Series :=
  [("Person", Str "Alice"); ("Task", Str "Dishes");
   ("Task Duration Minutes", Int 5)].

(** A row of the same frame, without a Date cell too, naming Bob. *)
Definition undated_bob_row : Series :=
  [("Person", Str "Bob"); ("Task", Str "Dishes");
   ("Task Duration Minutes", Int 10)].

(** Reference tables in which a name occurs twice. *)
Definition renamed_persons : list Person :=
  [mkPerson 1 "Alice"; mkPerson 2 "Bob"; mkPerson 3 "Alice"].


(** * Properties *)

Section String_facts.

Lemma split_last_dot_none s :
  split_last_dot s = None <-> contains_dot s = false.
Proof.
  induction s as [|c r IH]; simpl; [done|].
  destruct (split_last_dot r) as [[h t]|].
  - destruct (Ascii.eqb c "."); [done|]. split; [done|].
    intros Hr. apply IH in Hr. discriminate.
  - destruct (Ascii.eqb c "."); [done|]. split; [|done]. intros _. by apply IH.
Qed.

Lemma contains_dot_app h t : contains_dot (h +:+ String "." t) = true.
Proof.
  induction h as [|c h IH]; simpl; [done|].
  by destruct (Ascii.eqb c ".").
Qed.

Lemma split_last_dot_some s h t :
  split_last_dot s = Some (h, t) <->
  s = h +:+ String "." t ∧ contains_dot t = false.
Proof.
  revert h. induction s as [|c r IH]; intros h; simpl.
  - split; [done|]. intros [H _]. by destruct h.
  - destruct (split_last_dot r) as [[h' t']|] eqn:Hr.
    + split.
      * intros [= <- <-]. destruct (proj1 (IH h') eq_refl) as [-> Ht].
        by split.
      * intros [Hs Ht]. destruct h as [|c' h]; simpl in Hs.
        -- injection Hs as -> ->. apply split_last_dot_none in Ht. congruence.
        -- injection Hs as -> Hrest.
           assert (Some (h', t') = Some (h, t)) as [= -> ->]; [|done].
           by apply IH.
    + apply split_last_dot_none in Hr.
      destruct (Ascii.eqb_spec c ".") as [->|Hc].
      * split.
        -- by intros [= <- <-].
        -- intros [Hs Ht]. destruct h as [|c' h]; simpl in Hs.
           ++ by injection Hs as ->.
           ++ injection Hs as <- ->.
              by rewrite contains_dot_app in Hr.
      * split; [done|]. intros [Hs Ht]. destruct h as [|c' h]; simpl in Hs.
        -- by injection Hs as ->.
        -- injection Hs as -> ->.
           by rewrite contains_dot_app in Hr.
Qed.

(** X1.  [allowed_file] accepts exactly the names that end in a dot and an
    extension without dots that lowers to [csv]. *)
Lemma allowed_file_iff name :
  allowed_file name = true <->
  ∃ stem ext,
    name = stem +:+ String "." ext ∧ contains_dot ext = false ∧
    lower ext = "csv".
Proof.
  unfold allowed_file, rsplit_dot_1. split.
  - intros [Hdot Hext]%andb_true_iff.
    destruct (split_last_dot name) as [[h t]|] eqn:Hsplit.
    + simpl in Hext. apply bool_decide_eq_true in Hext.
      apply list_elem_of_singleton in Hext.
      apply split_last_dot_some in Hsplit as [-> Ht]. by exists h, t.
    + apply split_last_dot_none in Hsplit. congruence.
  - intros (stem & ext & Hname & Hext & Hcsv).
    assert (split_last_dot name = Some (stem, ext)) as Hsplit
      by by apply split_last_dot_some.
    rewrite Hsplit. simpl. apply andb_true_iff. split.
    + destruct (contains_dot name) eqn:Hdot; [done|].
      apply split_last_dot_none in Hdot. congruence.
    + apply bool_decide_eq_true. rewrite Hcsv. by apply list_elem_of_singleton.
Qed.

End String_facts.

Section Monad_facts.

Lemma flashed_nil w : flashed w [] = w.
Proof. destruct w; unfold flashed; simpl. by rewrite app_nil_r. Qed.

Lemma flashed_flashed w ms ms' : flashed (flashed w ms) ms' = flashed w (ms ++ ms').
Proof. unfold flashed; simpl. by rewrite app_assoc. Qed.

Lemma called_called w evs evs' : called (called w evs) evs' = called w (evs ++ evs').
Proof. unfold called; simpl. by rewrite app_assoc. Qed.

Lemma flash_run text c w : flash text c w = (Returns tt, flashed w [(c, text)]).
Proof. reflexivity. Qed.

Lemma bind_run_returns {A B} (m : M A) (k : A -> M B) w a w' :
  m w = (Returns a, w') -> bind m k w = k a w'.
Proof. intros H. unfold bind. by rewrite H. Qed.

Lemma bind_run_raises {A B} (m : M A) (k : A -> M B) w e w' :
  m w = (Raises e, w') -> bind m k w = (Raises e, w').
Proof. intros H. unfold bind. by rewrite H. Qed.

Lemma getitem_some row label v w :
  lookup_label label row = Some v -> getitem row label w = (Returns v, w).
Proof. intros H. unfold getitem. by rewrite H. Qed.

End Monad_facts.

Section Loop_facts.

Variables persons tasks : gmap string Z.

Lemma validate_row_person_missing row p t acc w :
  lookup_label "Person" row = Some p ->
  lookup_label "Task" row = Some t ->
  truthy (dict_get persons p) = false ->
  validate_row persons tasks row acc w
  = (Returns acc, flashed w [person_not_found p]).
Proof.
  intros Hp Ht Hid. unfold validate_row, bind, getitem.
  rewrite Hp, Ht. simpl. by rewrite Hid.
Qed.

Lemma validate_row_task_missing row p t acc w :
  lookup_label "Person" row = Some p ->
  lookup_label "Task" row = Some t ->
  truthy (dict_get persons p) = true ->
  truthy (dict_get tasks t) = false ->
  validate_row persons tasks row acc w
  = (Returns acc, flashed w [task_not_found t]).
Proof.
  intros Hp Ht Hpid Htid. unfold validate_row, bind, getitem.
  rewrite Hp, Ht. simpl. by rewrite Hpid, Htid.
Qed.

Lemma validate_row_columns row acc w :
  has_columns row = true ->
  validate_row persons tasks row acc w
  = (Returns (acc ++ row_record persons tasks row),
     flashed w (row_message persons tasks row)).
Proof.
  unfold has_columns. simpl. rewrite !andb_true_iff, !bool_decide_eq_true.
  intros ([d Hd] & [p Hp] & [t Ht] & [m Hm] & _).
  unfold row_record, row_message. rewrite Hp, Ht, Hd, Hm.
  destruct (truthy (dict_get persons p)) eqn:Hpid; simpl.
  - destruct (truthy (dict_get tasks t)) eqn:Htid; simpl.
    + unfold validate_row, bind, getitem.
      rewrite Hp, Ht, Hd, Hm. simpl. rewrite Hpid, Htid. simpl.
      by rewrite flashed_nil.
    + rewrite app_nil_r. by eapply validate_row_task_missing.
  - rewrite app_nil_r. by eapply validate_row_person_missing.
Qed.

(** The loop over two stretches of rows is the loop over the first, then
    the loop over the second from the list it has built. *)
Lemma iterrows_app rows1 rows2 acc w :
  iterrows persons tasks (rows1 ++ rows2) acc w
  = bind (iterrows persons tasks rows1 acc)
         (fun acc1 => iterrows persons tasks rows2 acc1) w.
Proof.
  revert acc w. induction rows1 as [|row rows1 IH]; intros acc w.
  - reflexivity.
  - simpl. unfold bind.
    destruct (validate_row persons tasks row acc w) as [[acc1|e] w1].
    + by rewrite IH.
    + reflexivity.
Qed.


(** A record the loop appends is the record of the row at hand, with both
    names found in the mappings. *)
Lemma row_record_is_record_of row rec :
  rec ∈ row_record persons tasks row -> is_record_of persons tasks row rec.
Proof.
  unfold row_record.
  destruct (lookup_label "Person" row) as [p|] eqn:Hp; [|by intros ?%elem_of_nil].
  destruct (lookup_label "Task" row) as [t|] eqn:Ht; [|by intros ?%elem_of_nil].
  destruct (lookup_label "Date" row) as [d|] eqn:Hd; [|by intros ?%elem_of_nil].
  destruct (lookup_label "Task Duration Minutes" row) as [m|] eqn:Hm;
    [|by intros ?%elem_of_nil].
  destruct (truthy (dict_get persons p)) eqn:Hpid; [|by intros ?%elem_of_nil].
  destruct (truthy (dict_get tasks t)) eqn:Htid; [|by intros ?%elem_of_nil].
  simpl. intros ->%list_elem_of_singleton.
  destruct p as [|p| | |]; try discriminate Hpid.
  destruct t as [|t| | |]; try discriminate Htid.
  simpl in *.
  destruct (persons !! p) as [pid|] eqn:Hpm; [|discriminate].
  destruct (tasks !! t) as [tid|] eqn:Htm; [|discriminate].
  by exists p, t, pid, tid.
Qed.

(** Whatever the row is, the loop body touches no session: it returns the
    list as it was or with the row's record appended, or raises the
    [KeyError] of a missing column. *)
Lemma validate_row_frame row acc w :
  ∃ r msgs, validate_row persons tasks row acc w = (r, flashed w msgs) ∧
    match r with
    | Returns acc' =>
        ∃ new, acc' = acc ++ new ∧ Forall (is_record_of persons tasks row) new
    | Raises e => ∃ k, e = KeyError k
    end.
Proof.
  destruct (has_columns row) eqn:Hcols.
  - rewrite validate_row_columns by done.
    eexists _, _; split; [done|]. eexists; split; [done|].
    apply Forall_forall. apply row_record_is_record_of.
  - unfold validate_row, bind, getitem.
    destruct (lookup_label "Person" row) as [p|] eqn:Hp;
      [|exists (Raises (KeyError "Person")), []; rewrite flashed_nil; eauto].
    simpl.
    destruct (lookup_label "Task" row) as [t|] eqn:Ht;
      [|exists (Raises (KeyError "Task")), []; rewrite flashed_nil; eauto].
    simpl.
    destruct (truthy (dict_get persons p)); simpl.
    + destruct (truthy (dict_get tasks t)); simpl.
      * destruct (lookup_label "Date" row) as [d|] eqn:Hd;
          [|exists (Raises (KeyError "Date")), []; rewrite flashed_nil; eauto].
        simpl.
        destruct (lookup_label "Task Duration Minutes" row) as [m|] eqn:Hm;
          [|exists (Raises (KeyError "Task Duration Minutes")), [];
            rewrite flashed_nil; eauto].
        exfalso. unfold has_columns in Hcols. simpl in Hcols.
        rewrite Hp, Ht, Hd, Hm in Hcols.
        rewrite !bool_decide_eq_true_2 in Hcols by eauto. done.
      * eexists _, _; split; [done|]. exists []. by rewrite app_nil_r.
    + eexists _, _; split; [done|]. exists []. by rewrite app_nil_r.
Qed.

Lemma iterrows_frame df acc w :
  ∃ r msgs, iterrows persons tasks df acc w = (r, flashed w msgs) ∧
    match r with
    | Returns acc' =>
        ∃ new, acc' = acc ++ new ∧
          Forall (fun rec => ∃ row, row ∈ df ∧ is_record_of persons tasks row rec) new
    | Raises e => ∃ k, e = KeyError k
    end.
Proof.
  revert acc w. induction df as [|row df IH]; intros acc w; simpl.
  - exists (Returns acc), []. rewrite flashed_nil. split; [done|].
    exists []. by rewrite app_nil_r.
  - destruct (validate_row_frame row acc w) as (r & msgs & Hrun & Hr).
    destruct r as [acc1|e].
    + destruct Hr as (new1 & -> & Hnew1).
      erewrite bind_run_returns by exact Hrun.
      destruct (IH (acc ++ new1) (flashed w msgs)) as (r2 & msgs2 & Hrun2 & Hr2).
      exists r2, (msgs ++ msgs2). rewrite <- flashed_flashed. split; [done|].
      destruct r2 as [acc2|e2]; [|done].
      destruct Hr2 as (new2 & -> & Hnew2).
      exists (new1 ++ new2). split; [by rewrite app_assoc|].
      apply Forall_app. split.
      * eapply Forall_impl; [exact Hnew1|]. intros rec Hrec.
        exists row. split; [left|done].
      * eapply Forall_impl; [exact Hnew2|]. intros rec (row' & Hin & Hrec).
        exists row'. split; [by right|done].
    + erewrite bind_run_raises by exact Hrun. eauto.
Qed.

(** A row the loop rejects leaves the run as it would be without the row,
    but for the message. *)
Lemma iterrows_skip row m rows1 rows2 acc w :
  (∀ acc' w', validate_row persons tasks row acc' w'
              = (Returns acc', flashed w' [m])) ->
  iterrows persons tasks (rows1 ++ row :: rows2) acc w
  = (acc1 <- iterrows persons tasks rows1 acc;;
     flash (snd m) (fst m);;;
     iterrows persons tasks rows2 acc1) w.
Proof.
  intros Hrow. rewrite iterrows_app. unfold bind at 1 2.
  destruct (iterrows persons tasks rows1 acc w) as [[acc1|e] w1]; [|done].
  simpl. unfold bind at 1 2. rewrite Hrow. by destruct m.
Qed.

Lemma iterrows_unresolved df acc w :
  Forall (fun row => has_label "Person" row = true ∧
                     has_label "Task" row = true ∧
                     resolves persons tasks row = false) df ->
  ∃ diagnostics,
    iterrows persons tasks df acc w = (Returns acc, flashed w diagnostics) ∧
    Forall2 (fun row m => ∃ p t,
               lookup_label "Person" row = Some p ∧
               lookup_label "Task" row = Some t ∧
               (m = person_not_found p ∨ m = task_not_found t))
            df diagnostics.
Proof.
  intros Hdf. revert w. induction Hdf as [|row df Hrow Hdf IH]; intros w.
  - exists []. by rewrite flashed_nil.
  - destruct Hrow as (Hp & Ht & Hres).
    apply bool_decide_eq_true in Hp as [p Hp].
    apply bool_decide_eq_true in Ht as [t Ht].
    unfold resolves in Hres. rewrite Hp, Ht in Hres.
    assert (∃ m, (m = person_not_found p ∨ m = task_not_found t) ∧
                 validate_row persons tasks row acc w
                 = (Returns acc, flashed w [m])) as (m & Hm & Hrun).
    { destruct (truthy (dict_get persons p)) eqn:Hpid.
      - exists (task_not_found t). split; [by right|].
        by apply validate_row_task_missing with p.
      - exists (person_not_found p). split; [by left|].
        by apply validate_row_person_missing with t. }
    destruct (IH (flashed w [m])) as (ms & Hrest & Hms).
    exists (m :: ms). split.
    + simpl. erewrite bind_run_returns by exact Hrun.
      rewrite Hrest. by rewrite flashed_flashed.
    + constructor; [|done]. by exists p, t.
Qed.

End Loop_facts.

(** Closes [l = base ++ ?more] once the left side is a chain of appends
    starting at [base]. *)
Ltac solve_app :=
  rewrite <- ?app_assoc;
  first [ reflexivity | symmetry; apply app_nil_r ].

(** Closes [(r, w') = (?r, mkWorld (cs ++ ?evs) (fs ++ ?msgs))]. *)
Ltac solve_run :=
  unfold flashed, called; simpl; f_equal; f_equal; solve_app.

Section Run_facts.

Variable db : Database.
Variable decode_utf8 : string -> string + string.
Variable read_csv : string -> DataFrame + string.

Lemma session_call_ok c w :
  fault db (length (calls w)) = None ->
  session_call db c w = (Returns tt, called w [(c, None)]).
Proof. intros H. unfold session_call. by rewrite H. Qed.

Lemma session_call_failed c w msg :
  fault db (length (calls w)) = Some msg ->
  session_call db c w = (Raises (SQLAlchemyError msg), called w [(c, Some msg)]).
Proof. intros H. unfold session_call. by rewrite H. Qed.

Ltac procedure_cases w :=
  destruct w as [cs fs];
  unfold try_except, bind, session_call, session_rollback, flash, log_call;
  simpl;
  destruct (fault db (length cs)) as [msg1|]; simpl;
  [ eexists _, _; split; [solve_run | apply boundary_call_failed]
  | match goal with
    | |- context [fault db ?n] => destruct (fault db n) as [msg2|]; simpl
    end;
    [ eexists _, _; split; [solve_run | apply boundary_commit_failed]
    | eexists _, _; split; [solve_run | apply boundary_committed] ] ].

(** Each wrapper returns whatever the database does, leaving one
    transaction boundary in the log and one message. *)
Lemma truncate_run w :
  ∃ evs m,
    truncate_postgres_tbl db "stg_fact_housework_tasks" w
    = (Returns tt, mkWorld (calls w ++ evs) (flashes w ++ [m])) ∧
    boundary "CALL truncate_stg_fact_housework_tasks();" evs.
Proof. unfold truncate_postgres_tbl. simpl. procedure_cases w. Qed.

Lemma populate_run w :
  ∃ evs m,
    populate_fact_housework_tasks db w
    = (Returns tt, mkWorld (calls w ++ evs) (flashes w ++ [m])) ∧
    boundary "CALL populate_fact_housework_tasks();" evs.
Proof. unfold populate_fact_housework_tasks. procedure_cases w. Qed.

Lemma backfill_run w :
  ∃ evs m,
    backfill_agg_daily_housework_tasks db w
    = (Returns tt, mkWorld (calls w ++ evs) (flashes w ++ [m])) ∧
    boundary "CALL backfill_agg_daily_housework_tasks();" evs.
Proof. unfold backfill_agg_daily_housework_tasks. procedure_cases w. Qed.

(** Splits on whether the next call on the session fails. *)
Ltac step_call m :=
  match goal with
  | |- context [session_call db ?c ?W] =>
      let F := fresh "F" in
      destruct (fault db (length (calls W))) as [m|] eqn:F;
      [ rewrite (session_call_failed c W m F)
      | rewrite (session_call_ok c W F) ];
      simpl
  end.

Ltac not_bulk H :=
  repeat (apply elem_of_cons in H as [H|H]; [discriminate H|]);
  by apply elem_of_nil in H.

(** The [try] block under any behaviour of the database and of the two
    library calls: it calls no stored procedure, ends with a message when it
    returns, and bulk-saves only records of rows of the parsed frame. *)
Lemma process_csv_try_run f w :
  ∃ r evs msgs,
    process_csv_try db decode_utf8 read_csv f w
    = (r, mkWorld (calls w ++ evs) (flashes w ++ msgs)) ∧
    Forall (fun ev => is_execute ev = false) evs ∧
    (r = Returns tt -> ∃ msgs' m, msgs = msgs' ++ [m]) ∧
    (∀ recs o, (bulk_save_objects recs, o) ∈ evs ->
       ∃ text df, decode_utf8 (stream f) = inl text ∧ read_csv text = inl df ∧
         Forall (fun rec => ∃ row, row ∈ df ∧
                   is_record_of (persons_dict (dim_person db))
                                (tasks_dict (dim_task db)) row rec) recs).
Proof.
  unfold process_csv_try, Person_query_all, Task_query_all, bind, ret.
  step_call m1.
  { eexists _, _, []. split; [solve_run|].
    split; [by repeat constructor|]. split; [done|].
    intros recs o H. not_bulk H. }
  step_call m2.
  { eexists _, _, []. split; [solve_run|].
    split; [by repeat constructor|]. split; [done|].
    intros recs o H. not_bulk H. }
  destruct (decode_utf8 (stream f)) as [text|bad] eqn:Hdecode; simpl.
  2:{ eexists _, _, []. split; [solve_run|].
      split; [by repeat constructor|]. split; [done|].
      intros recs o H. not_bulk H. }
  destruct (read_csv text) as [df|bad] eqn:Hread; simpl.
  2:{ eexists _, _, []. split; [solve_run|].
      split; [by repeat constructor|]. split; [done|].
      intros recs o H. not_bulk H. }
  match goal with
  | |- context [iterrows ?ps ?ts df [] ?w1] =>
      destruct (iterrows_frame ps ts df [] w1) as (r & msgs & Hrun & Hr);
      rewrite Hrun; clear Hrun
  end.
  destruct r as [recs'|e]; simpl.
  2:{ eexists _, _, msgs. split; [solve_run|].
      split; [by repeat constructor|]. split; [done|].
      intros recs o H. not_bulk H. }
  destruct Hr as (new & -> & Hnew). simpl. destruct new as [|rec new].
  { rewrite flash_run. eexists _, _, _. split; [solve_run|].
    split; [by repeat constructor|]. split; [eauto|].
    intros recs o H. not_bulk H. }
  step_call m3.
  { eexists _, _, msgs. split; [solve_run|].
    split; [by repeat constructor|]. split; [done|].
    intros recs o H.
    do 2 (apply elem_of_cons in H as [H|H]; [discriminate H|]).
    apply elem_of_cons in H as [H|H]; [|by apply elem_of_nil in H].
    injection H as -> _. eauto. }
  step_call m4.
  { eexists _, _, msgs. split; [solve_run|].
    split; [by repeat constructor|]. split; [done|].
    intros recs o H.
    do 2 (apply elem_of_cons in H as [H|H]; [discriminate H|]).
    apply elem_of_cons in H as [H|H]; [|not_bulk H].
    injection H as -> _. eauto. }
  rewrite flash_run. eexists _, _, _. split; [solve_run|].
  split; [by repeat constructor|]. split; [eauto|].
  intros recs o H.
  do 2 (apply elem_of_cons in H as [H|H]; [discriminate H|]).
  apply elem_of_cons in H as [H|H]; [|not_bulk H].
  injection H as -> _. eauto.
Qed.

(** [process_csv] returns, whatever happens inside. *)
Lemma process_csv_run f w :
  ∃ evs msgs m,
    process_csv db decode_utf8 read_csv f w
    = (Returns tt, mkWorld (calls w ++ evs) (flashes w ++ msgs ++ [m])) ∧
    Forall (fun ev => is_execute ev = false) evs ∧
    (∀ recs o, (bulk_save_objects recs, o) ∈ evs ->
       ∃ text df, decode_utf8 (stream f) = inl text ∧ read_csv text = inl df ∧
         Forall (fun rec => ∃ row, row ∈ df ∧
                   is_record_of (persons_dict (dim_person db))
                                (tasks_dict (dim_task db)) row rec) recs).
Proof.
  destruct (process_csv_try_run f w) as (r & evs & msgs & Hrun & Hexec & Hlast & Hrecs).
  unfold process_csv, try_except. rewrite Hrun.
  destruct r as [[]|e].
  - destruct (Hlast eq_refl) as (msgs' & m & ->).
    exists evs, msgs', m. by rewrite app_assoc.
  - destruct e; unfold bind, session_rollback, flash, log_call; simpl.
    1:{ eexists (evs ++ [(rollback, None)]), msgs, _.
        split; [by rewrite !app_assoc|].
        split; [apply Forall_app; split; [done|by repeat constructor]|].
        intros recs o [H|H]%elem_of_app; [eauto|not_bulk H]. }
    all: eexists evs, msgs, _; split; [by rewrite !app_assoc|done].
Qed.

End Run_facts.

Ltac step_call db m :=
  match goal with
  | |- context [session_call db ?c ?W] =>
      let F := fresh "F" in
      destruct (fault db (length (calls W))) as [m|] eqn:F;
      [ rewrite (session_call_failed db c W m F)
      | rewrite (session_call_ok db c W F) ];
      simpl
  end.

Section Mapping_facts.

(** A name the comprehension maps comes from a row of the table. *)
Lemma persons_dict_lookup rows name pid :
  persons_dict rows !! name = Some pid ->
  ∃ p, p ∈ rows ∧ person_name p = name ∧ person_pk p = pid.
Proof.
  unfold persons_dict.
  assert (∀ d : gmap string Z,
            fold_left (fun d p => <[person_name p := person_pk p]> d) rows d
              !! name = Some pid ->
               d !! name = Some pid ∨
               ∃ p, p ∈ rows ∧ person_name p = name ∧ person_pk p = pid) as H.
  { induction rows as [|p rows IH]; intros d Hd; simpl in Hd; [by left|].
    destruct (IH _ Hd) as [Hins|(q & Hq & Hname & Hpk)].
    - destruct (decide (person_name p = name)) as [Heq|Hne].
      + rewrite Heq, lookup_insert_eq in Hins. injection Hins as Hpid.
        right. exists p. split; [left|done].
      + rewrite lookup_insert_ne in Hins by done. by left.
    - right. exists q. split; [by right|done]. }
  intros Hd. destruct (H ∅ Hd) as [Hempty|Hrow]; [|done].
  by rewrite lookup_empty in Hempty.
Qed.

Lemma tasks_dict_lookup rows name tid :
  tasks_dict rows !! name = Some tid ->
  ∃ t, t ∈ rows ∧ task_name t = name ∧ task_pk t = tid.
Proof.
  unfold tasks_dict.
  assert (∀ d : gmap string Z,
            fold_left (fun d t => <[task_name t := task_pk t]> d) rows d
              !! name = Some tid ->
               d !! name = Some tid ∨
               ∃ t, t ∈ rows ∧ task_name t = name ∧ task_pk t = tid) as H.
  { induction rows as [|t rows IH]; intros d Hd; simpl in Hd; [by left|].
    destruct (IH _ Hd) as [Hins|(q & Hq & Hname & Hpk)].
    - destruct (decide (task_name t = name)) as [Heq|Hne].
      + rewrite Heq, lookup_insert_eq in Hins. injection Hins as Htid.
        right. exists t. split; [left|done].
      + rewrite lookup_insert_ne in Hins by done. by left.
    - right. exists q. split; [by right|done]. }
  intros Hd. destruct (H ∅ Hd) as [Hempty|Hrow]; [|done].
  by rewrite lookup_empty in Hempty.
Qed.




Variables persons tasks : gmap string Z.
Hypothesis persons_nonzero : ∀ k, persons !! k ≠ Some 0.
Hypothesis tasks_nonzero : ∀ k, tasks !! k ≠ Some 0.



End Mapping_facts.

(** Runs the first computation of the sequence in the goal with a lemma
    [run] that gives its result and a fact [H] about what it logged. *)
Ltac run_step run evs m H :=
  match goal with
  | |- context [bind _ _ ?W] =>
      let Hrun := fresh "Hrun" in
      destruct (run W) as (evs & m & Hrun & H);
      erewrite bind_run_returns by exact Hrun;
      clear Hrun
  end.

Ltac run_flash := erewrite bind_run_returns by apply flash_run.

Section View_facts.

Variable db : Database.
Variable decode_utf8 : string -> string + string.
Variable read_csv : string -> DataFrame + string.

(** The two queries that fill the dropdowns, when they do not fail. *)
Lemma reference_queries_run {A} (k : list Person -> list Task -> M A) w :
  reference_queries_ok db w ->
  (person_rows <- Person_query_all db;;
   task_rows <- Task_query_all db;;
   k person_rows task_rows) w
  = k (dim_person db) (dim_task db) (called w reference_queries).
Proof.
  intros [Hfirst Hsecond].
  unfold Person_query_all, Task_query_all, bind, ret.
  rewrite (session_call_ok db _ w Hfirst). simpl.
  rewrite session_call_ok.
  - by rewrite called_called.
  - simpl. rewrite length_app. simpl. by rewrite Nat.add_1_r.
Qed.

Lemma healthy_reference_queries_ok w : healthy db -> reference_queries_ok db w.
Proof. intros H. split; apply H. Qed.

(** The view on an upload whose file name passes [allowed_file]. *)
Lemma upload_allowed_run req f w :
  method req = POST ->
  action_is (form_action req) "upload_csv" = true ->
  posted_file req = Some f ->
  truthy_file (Some f) = true ->
  allowed_file (filename f) = true ->
  reference_queries_ok db w ->
  add_task_record db decode_utf8 read_csv req w
  = (truncate_postgres_tbl db "stg_fact_housework_tasks";;;
     process_csv db decode_utf8 read_csv f;;;
     flash "CSV file processed successfully!" success;;;
     populate_fact_housework_tasks db;;;
     backfill_agg_daily_housework_tasks db;;;
     ret (Redirect "add_task_record")) (called w reference_queries).
Proof.
  intros Hpost Haction Hfile Htruthy Hallowed Hrefs.
  unfold add_task_record. rewrite reference_queries_run by done.
  rewrite Hpost, Haction, Hfile, Htruthy, Hallowed.
  assert (action_is (form_action req) "submit_record" = false) as ->.
  { destruct (form_action req) as [a|]; [|done]. simpl in *.
    apply String.eqb_eq in Haction as ->. reflexivity. }
  reflexivity.
Qed.

(** [DataRequired] turns down a duration of 0, whatever else the form
    holds. *)
Lemma zero_minutes_never_validate form :
  posted_minutes (request form) = Some 0 -> validate form = false.
Proof.
  intros H. unfold validate. rewrite H. simpl.
  by rewrite andb_false_r.
Qed.

(** A manual submission that fails validation with a duration of at most 0
    gets both messages; the session sees the two reference queries only. *)
Lemma rejected_nonpositive_minutes req d w :
  method req = POST ->
  action_is (form_action req) "submit_record" = true ->
  posted_minutes req = Some d ->
  d <= 0 ->
  validate (mkForm req (choices_of_persons (dim_person db))
                       (choices_of_tasks (dim_task db))) = false ->
  reference_queries_ok db w ->
  add_task_record db decode_utf8 read_csv req w
  = (Returns (Render "task_record_form.html"
                (mkForm req (choices_of_persons (dim_person db))
                            (choices_of_tasks (dim_task db)))),
     mkWorld (calls w ++ reference_queries)
             (flashes w ++ [(danger, "Invalid action or form submission.");
                            (danger, "Minutes field should be greater than 0.")])).
Proof.
  intros Hpost Haction Hminutes Hd Hinvalid Hrefs.
  unfold add_task_record. rewrite reference_queries_run by done.
  unfold validate_on_submit, is_submitted. cbn [request].
  rewrite Hpost, Haction, Hinvalid, Hminutes. simpl.
  assert (action_is (form_action req) "upload_csv" = false) as ->.
  { destruct (form_action req) as [a|]; [|done]. simpl in *.
    apply String.eqb_eq in Haction as ->. reflexivity. }
  simpl. unfold bind, flash, le_zero, ret. simpl.
  apply Z.leb_le in Hd. rewrite Hd. simpl. solve_run.
Qed.

(** The [try] block of [process_csv] once the file has been read. *)
Lemma process_csv_try_parsed csv_file text df w :
  decode_utf8 (stream csv_file) = inl text ->
  read_csv text = inl df ->
  reference_queries_ok db w ->
  process_csv_try db decode_utf8 read_csv csv_file w
  = (task_records <- iterrows (persons_dict (dim_person db))
                              (tasks_dict (dim_task db)) df [];;
     match task_records with
     | _ :: _ =>
         session_call db (bulk_save_objects task_records);;;
         session_call db commit;;;
         flash ("Successfully inserted " +:+ pretty (length task_records)
                +:+ " task records.") success
     | [] => flash "No valid task records to insert." warning
     end) (called w reference_queries).
Proof.
  intros Hdecode Hread Hrefs. unfold process_csv_try.
  rewrite reference_queries_run by done.
  rewrite Hdecode. unfold bind at 1. simpl. by rewrite Hread.
Qed.

End View_facts.

(** * The claims *)

Section Claims.

Variable db : Database.
Variable decode_utf8 : string -> string + string.
Variable read_csv : string -> DataFrame + string.

(** C1 (the code departs from the claim).  An upload whose file name fails
    [allowed_file] does get its rejection message, and [process_csv], the
    populate and the backfill calls are not reached; but the staging
    truncate has already been called on the session, inside its own
    transaction, before the extension is looked at. *)
Theorem upload_wrong_extension_truncates_first req f w :
  method req = POST ->
  action_is (form_action req) "upload_csv" = true ->
  posted_file req = Some f ->
  truthy_file (Some f) = true ->
  allowed_file (filename f) = false ->
  reference_queries_ok db w ->
  ∃ truncation m,
    add_task_record db decode_utf8 read_csv req w
    = (Returns (Redirect "add_task_record"),
       mkWorld (calls w ++ reference_queries ++ truncation)
               (flashes w ++ [m; (danger, "Please upload a valid CSV file.")])) ∧
    boundary sql_truncate truncation.
Proof.
  intros Hpost Haction Hfile Htruthy Hallowed Hrefs.
  unfold add_task_record. rewrite reference_queries_run by done.
  rewrite Hpost, Haction, Hfile, Htruthy, Hallowed.
  assert (action_is (form_action req) "submit_record" = false) as ->.
  { destruct (form_action req) as [a|]; [|done]. simpl in *.
    apply String.eqb_eq in Haction as ->. reflexivity. }
  simpl.
  destruct (truncate_run db (called w reference_queries)) as (t & m & Hrun & Ht).
  erewrite bind_run_returns by exact Hrun.
  exists t, m. split; [|exact Ht].
  unfold bind, flash, ret. simpl. by rewrite <- !app_assoc.
Qed.

(** C8 (the code departs from the claim).  A POST whose action is neither
    [submit_record] nor [upload_csv] flashes the generic message and issues
    nothing but the two reference queries; the form is rendered with the
    choices read from the reference tables when the minutes field holds an
    integer.  When it does not, the comparison of [None] with 0 raises and
    the request fails instead of rendering. *)
Theorem other_action_renders_unless_minutes_is_none req w :
  method req = POST ->
  action_is (form_action req) "submit_record" = false ->
  action_is (form_action req) "upload_csv" = false ->
  reference_queries_ok db w ->
  add_task_record db decode_utf8 read_csv req w
  = (match posted_minutes req with
     | Some _ =>
         Returns (Render "task_record_form.html"
                    (mkForm req (choices_of_persons (dim_person db))
                                (choices_of_tasks (dim_task db))))
     | None =>
         Raises (TypeError
           "'<=' not supported between instances of 'NoneType' and 'int'")
     end,
     mkWorld (calls w ++ reference_queries)
             (flashes w ++ [(danger, "Invalid action or form submission.")])).
Proof.
  intros Hpost Hsubmit Hupload Hrefs.
  unfold add_task_record. rewrite reference_queries_run by done.
  rewrite Hpost, Hsubmit, Hupload. simpl.
  unfold bind, flash, le_zero. simpl.
  destruct (posted_minutes req) as [z|]; simpl; [|reflexivity].
  by rewrite andb_false_r.
Qed.

(** C7 (the code departs from the claim).  [DataRequired] on the minutes
    field only rejects 0: a manual submission with a duration of at most 0
    that validates, as every negative duration on an otherwise valid form
    does, is inserted like any other, and the minutes message is not
    flashed. *)
Theorem nonpositive_minutes_that_validate_are_inserted req d w :
  method req = POST ->
  action_is (form_action req) "submit_record" = true ->
  posted_minutes req = Some d ->
  d <= 0 ->
  validate (mkForm req (choices_of_persons (dim_person db))
                       (choices_of_tasks (dim_task db))) = true ->
  healthy db ->
  d < 0 ∧
  ∃ record,
    task_duration_minutes record = Int d ∧
    add_task_record db decode_utf8 read_csv req w
    = (Returns (Redirect "add_task_record"),
       mkWorld (calls w ++ reference_queries
                ++ [(execute sql_truncate, None); (commit, None);
                    (add record, None); (commit, None);
                    (execute sql_populate, None); (commit, None);
                    (execute sql_backfill, None); (commit, None)])
               (flashes w
                ++ [(success, "Successfully truncated stg_fact_housework_tasks!");
                    (success, "Task record added successfully!");
                    (success, "Successfully populated fact_housework_tasks!");
                    (success, "Successfully backfilling agg_daily_housework_tasks!")])).
Proof.
  intros Hpost Haction Hminutes Hd Hvalid Hdb.
  split.
  { unfold validate in Hvalid. cbn [request] in Hvalid.
    rewrite Hminutes in Hvalid.
    rewrite !andb_true_iff in Hvalid.
    destruct Hvalid as [[_ Hrequired] _]. unfold DataRequired_int in Hrequired.
    simpl in Hrequired. apply negb_true_iff, Z.eqb_neq in Hrequired. lia. }
  eexists. split; [|].
  2:{ unfold add_task_record.
      rewrite reference_queries_run by by apply healthy_reference_queries_ok.
      unfold validate_on_submit, is_submitted. cbn [request].
      rewrite Hpost, Haction, Hvalid. simpl.
      unfold truncate_postgres_tbl, populate_fact_housework_tasks,
        backfill_agg_daily_housework_tasks, try_except, bind. simpl.
      repeat (rewrite session_call_ok by apply Hdb; simpl).
      rewrite Hminutes. unfold ret. solve_run. }
  reflexivity.
Qed.

(** C10.  On an upload whose file name is allowed, whatever [process_csv]
    did and flashed (it always returns), the next message is the success
    message 'CSV file processed successfully!', followed by the messages of
    the populate and backfill calls. *)
Theorem upload_flashes_processed_unconditionally req f w :
  method req = POST ->
  action_is (form_action req) "upload_csv" = true ->
  posted_file req = Some f ->
  truthy_file (Some f) = true ->
  allowed_file (filename f) = true ->
  reference_queries_ok db w ->
  ∃ w1 w2 w' m_populate m_backfill,
    truncate_postgres_tbl db "stg_fact_housework_tasks"
      (called w reference_queries) = (Returns tt, w1) ∧
    process_csv db decode_utf8 read_csv f w1 = (Returns tt, w2) ∧
    add_task_record db decode_utf8 read_csv req w
    = (Returns (Redirect "add_task_record"), w') ∧
    flashes w'
    = flashes w2 ++ [(success, "CSV file processed successfully!");
                     m_populate; m_backfill].
Proof.
  intros Hpost Haction Hfile Htruthy Hallowed Hrefs.
  rewrite (upload_allowed_run db decode_utf8 read_csv req f w) by done.
  destruct (truncate_run db (called w reference_queries))
    as (t & m & Htruncate & _).
  set (w1 := mkWorld (calls (called w reference_queries) ++ t)
                     (flashes (called w reference_queries) ++ [m])) in *.
  destruct (process_csv_run db decode_utf8 read_csv f w1)
    as (evs & msgs & m' & Hcsv & _).
  set (w2 := mkWorld (calls w1 ++ evs) (flashes w1 ++ msgs ++ [m'])) in *.
  set (w3 := flashed w2 [(success, "CSV file processed successfully!")]).
  destruct (populate_run db w3) as (p & mp & Hpopulate & _).
  set (w4 := mkWorld (calls w3 ++ p) (flashes w3 ++ [mp])) in *.
  destruct (backfill_run db w4) as (b & mb & Hbackfill & _).
  eexists w1, w2, _, mp, mb.
  split; [exact Htruncate|]. split; [exact Hcsv|].
  erewrite bind_run_returns by exact Htruncate.
  erewrite bind_run_returns by exact Hcsv.
  erewrite bind_run_returns by apply flash_run.
  fold w3. erewrite bind_run_returns by exact Hpopulate.
  erewrite bind_run_returns by exact Hbackfill.
  split; [reflexivity|]. simpl. by rewrite <- !app_assoc.
Qed.

(** The order of the three stored procedures, as far as the view keeps
    it.  On a request that reaches an ingestion step, after the two
    reference queries the session log is: the truncate call in its own
    transaction boundary, then the calls of the ingestion, none of them a
    stored procedure, then the populate call in its boundary, then the
    backfill call in its boundary.  This holds whichever of these calls the
    database fails.  The one other outcome is that the [add] or [commit] of
    a manual record raises, which ends the request after the truncate
    boundary, with neither populate nor backfill called. *)
Theorem stored_operations_run_in_order req w :
  ingestion_request db req = true ->
  reference_queries_ok db w ->
  ∃ r w' truncation rest,
    add_task_record db decode_utf8 read_csv req w = (r, w') ∧
    calls w' = calls w ++ reference_queries ++ truncation ++ rest ∧
    boundary sql_truncate truncation ∧
    ((r = Returns (Redirect "add_task_record") ∧
      ∃ ingestion population backfilling,
        rest = ingestion ++ population ++ backfilling ∧
        Forall (fun ev => is_execute ev = false) ingestion ∧
        boundary sql_populate population ∧
        boundary sql_backfill backfilling)
     ∨
     (action_is (form_action req) "submit_record" = true ∧
      ∃ msg record,
        r = Raises (SQLAlchemyError msg) ∧
        (rest = [(add record, Some msg)] ∨
         rest = [(add record, None); (commit, Some msg)]))).
Proof.
  intros Hreq Hrefs. unfold ingestion_request in Hreq.
  destruct (method req) eqn:Hpost; [discriminate|].
  apply orb_true_iff in Hreq as [Hsubmit|Hupload].
  - apply andb_true_iff in Hsubmit as [Haction Hvalid].
    unfold add_task_record. rewrite reference_queries_run by done.
    unfold validate_on_submit, is_submitted. cbn [request].
    rewrite Hpost, Haction, Hvalid. simpl.
    run_step (truncate_run db) t m Ht.
    unfold bind at 1. step_call db m1.
    { eexists _, _, t, _. split; [reflexivity|]. simpl.
      split; [by rewrite <- !app_assoc|]. split; [exact Ht|].
      right. split; [done|]. eauto. }
    unfold bind at 1. step_call db m2.
    { eexists _, _, t, _. split; [reflexivity|]. simpl.
      split; [by rewrite <- !app_assoc|]. split; [exact Ht|].
      right. split; [done|]. eauto. }
    run_flash.
    run_step (populate_run db) p mp Hp.
    run_step (backfill_run db) b mb Hb.
    eexists _, _, t, _. split; [reflexivity|]. simpl.
    split; [rewrite <- !app_assoc; simpl; reflexivity|]. split; [exact Ht|].
    left. split; [done|].
    eexists [_; _], p, b. split; [reflexivity|].
    split; [by repeat constructor|]. done.
  - apply andb_true_iff in Hupload as [Hupload Hallowed].
    apply andb_true_iff in Hupload as [Haction Htruthy].
    destruct (posted_file req) as [f|] eqn:Hfile; [|discriminate].
    rewrite (upload_allowed_run db decode_utf8 read_csv req f w) by done.
    run_step (truncate_run db) t m Ht.
    match goal with
    | |- context [bind _ _ ?W] =>
        destruct (process_csv_run db decode_utf8 read_csv f W)
          as (evs & msgs & m' & Hcsv & Hevs & _);
        erewrite bind_run_returns by exact Hcsv; clear Hcsv
    end.
    run_flash.
    run_step (populate_run db) p mp Hp.
    run_step (backfill_run db) b mb Hb.
    eexists _, _, t, _. split; [reflexivity|]. simpl.
    split; [rewrite <- !app_assoc; simpl; reflexivity|]. split; [exact Ht|].
    left. split; [done|]. by exists evs, p, b.
Qed.

(** C6.  [process_csv] returns on every file, in every world and whatever
    the database and the two library calls do: it never raises.  It always
    flashes at least one message.  When its [try] block raises, the last
    message is a danger message carrying the text of the exception, and a
    storage error is first rolled back. *)
Theorem process_csv_never_raises csv_file w :
  ∃ w',
    process_csv db decode_utf8 read_csv csv_file w = (Returns tt, w') ∧
    (∃ msgs m, flashes w' = flashes w ++ msgs ++ [m]) ∧
    (∀ e w1,
       process_csv_try db decode_utf8 read_csv csv_file w = (Raises e, w1) ->
       match e with
       | SQLAlchemyError _ =>
           calls w' = calls w1 ++ [(rollback, None)] ∧
           flashes w'
           = flashes w1 ++ [(danger, "Error processing CSV: " +:+ str_exn e)]
       | _ =>
           calls w' = calls w1 ∧
           flashes w'
           = flashes w1 ++ [(danger, "Unexpected error: " +:+ str_exn e)]
       end).
Proof.
  destruct (process_csv_run db decode_utf8 read_csv csv_file w)
    as (evs & msgs & m & Hrun & _).
  eexists. split; [exact Hrun|]. split; [simpl; eauto|].
  intros e w1 Htry. revert Hrun. unfold process_csv, try_except.
  rewrite Htry.
  destruct e; unfold bind, session_rollback, flash, log_call; simpl;
    intros [= <- <-]; done.
Qed.


(** The rows with an absent name that the loop reports as they are.  Take
    a row with Person and Task cells whose Person name is not in the person
    mapping, or whose Person resolves to an id other than 0 and whose Task
    name is not in the task mapping.  In the loop, once the rows before it
    are done, the diagnostic naming that Person (that Task) is flashed and
    the loop goes on with the rows after it, from the same list of records.
    And [process_csv] returns, having bulk-saved only records of other rows
    of the frame. *)
Theorem row_with_absent_name_is_skipped csv_file text df row p t w :
  decode_utf8 (stream csv_file) = inl text ->
  read_csv text = inl df ->
  lookup_label "Person" row = Some p ->
  lookup_label "Task" row = Some t ->
  let persons := persons_dict (dim_person db) in
  let tasks := tasks_dict (dim_task db) in
  name_in persons (Some p) = false
  ∨ (truthy (dict_get persons p) = true ∧ name_in tasks (Some t) = false) ->
  let diagnostic :=
    if name_in persons (Some p) then task_not_found t else person_not_found p in
  (∀ rows1 rows2 acc w0,
     iterrows persons tasks (rows1 ++ row :: rows2) acc w0
     = (acc1 <- iterrows persons tasks rows1 acc;;
        flash (snd diagnostic) danger;;;
        iterrows persons tasks rows2 acc1) w0) ∧
  ∃ evs msgs,
    process_csv db decode_utf8 read_csv csv_file w
    = (Returns tt, mkWorld (calls w ++ evs) (flashes w ++ msgs)) ∧
    ∀ records o, (bulk_save_objects records, o) ∈ evs ->
      Forall (fun rec => ∃ row', row' ∈ df ∧ row' ≠ row ∧
                is_record_of persons tasks row' rec) records.
Proof.
  intros Hdecode Hread Hp Ht persons tasks Habsent diagnostic.
  assert (∀ (d : gmap string Z) v,
            name_in d (Some v) = false -> truthy (dict_get d v) = false)
    as Hfalsy.
  { intros d [|s| | |] Hv; try reflexivity. simpl in *.
    apply bool_decide_eq_false in Hv.
    destruct (d !! s) eqn:Hs; [|done]. destruct Hv. eauto. }
  assert (∀ (d : gmap string Z) v,
            truthy (dict_get d v) = true -> name_in d (Some v) = true)
    as Hpresent.
  { intros d v Hv. destruct (name_in d (Some v)) eqn:Hn; [done|].
    apply Hfalsy in Hn. congruence. }
  split.
  - intros rows1 rows2 acc w0.
    assert (fst diagnostic = danger) as <-.
    { unfold diagnostic. by destruct (name_in persons (Some p)). }
    apply iterrows_skip. intros acc' w'. unfold diagnostic.
    destruct Habsent as [Hperson|[Hperson Htask]].
    + rewrite Hperson. apply validate_row_person_missing with t; auto.
    + rewrite (Hpresent _ _ Hperson).
      apply validate_row_task_missing with p; auto.
  - destruct (process_csv_run db decode_utf8 read_csv csv_file w)
      as (evs & msgs & m & Hrun & _ & Hrecords).
    exists evs, (msgs ++ [m]). split; [exact Hrun|].
    intros records o Hin.
    destruct (Hrecords records o Hin) as (text' & df' & Hdecode' & Hread' & Hall).
    rewrite Hdecode in Hdecode'. injection Hdecode' as <-.
    rewrite Hread in Hread'. injection Hread' as <-.
    eapply Forall_impl; [exact Hall|].
    intros rec (row' & Hin' & Hrec). exists row'.
    split; [done|]. split; [|done]. intros ->.
    destruct Hrec as (p' & t' & pid & tid & Hp' & Hpid & Ht' & Htid & _).
    rewrite Hp in Hp'. injection Hp' as ->.
    rewrite Ht in Ht'. injection Ht' as ->.
    destruct Habsent as [Hperson|[_ Htask]].
    + simpl in Hperson. apply bool_decide_eq_false in Hperson.
      apply Hperson. fold persons in Hpid. eauto.
    + simpl in Htask. apply bool_decide_eq_false in Htask.
      apply Htask. fold tasks in Htid. eauto.
Qed.

(** C4.  On a parsed frame whose rows all have a Person and a Task cell and
    none of which resolves, with the two reference queries answered:
    [process_csv] issues those two queries and nothing else on the session
    (no insert, no commit, no rollback); it flashes one not-found
    diagnostic per row and then the warning 'No valid task records to
    insert.' as its outcome. *)
Theorem no_resolvable_row_gives_a_warning csv_file text df w :
  decode_utf8 (stream csv_file) = inl text ->
  read_csv text = inl df ->
  reference_queries_ok db w ->
  Forall (fun row => has_label "Person" row = true ∧
                     has_label "Task" row = true ∧
                     resolves (persons_dict (dim_person db))
                              (tasks_dict (dim_task db)) row = false) df ->
  ∃ diagnostics,
    process_csv db decode_utf8 read_csv csv_file w
    = (Returns tt,
       mkWorld (calls w ++ reference_queries)
               (flashes w ++ diagnostics
                ++ [(warning, "No valid task records to insert.")])) ∧
    Forall2 (fun row m => ∃ p t,
               lookup_label "Person" row = Some p ∧
               lookup_label "Task" row = Some t ∧
               (m = person_not_found p ∨ m = task_not_found t))
            df diagnostics.
Proof.
  intros Hdecode Hread Hrefs Hdf.
  unfold process_csv, try_except.
  rewrite (process_csv_try_parsed db decode_utf8 read_csv csv_file text df)
    by done.
  destruct (iterrows_unresolved _ _ df [] (called w reference_queries) Hdf)
    as (ms & Hrun & Hms).
  erewrite bind_run_returns by exact Hrun.
  exists ms. split; [|exact Hms]. solve_run.
Qed.

End Claims.


(** * The claims on concrete runs *)

(** Refutes membership in a list of closed, distinct entries. *)
Ltac not_in_list H :=
  repeat (apply elem_of_cons in H as [H|H]; [discriminate H|]);
  by apply elem_of_nil in H.

Lemma sample_db_healthy : healthy sample_db.
Proof. intros n. reflexivity. Defined.

Lemma sample_queries_ok db :
  fault db = no_faults -> reference_queries_ok db empty_world.
Proof. intros H. unfold reference_queries_ok. rewrite H. split; reflexivity. Defined.

Lemma upload_wrong_extension_truncates_first_witness :
  ∃ truncation m,
    add_task_record sample_db sample_decode sample_read_csv
      (upload_request "notes.txt" "two rows") empty_world
    = (Returns (Redirect "add_task_record"),
       mkWorld (calls empty_world ++ reference_queries ++ truncation)
               (flashes empty_world
                ++ [m; (danger, "Please upload a valid CSV file.")])) ∧
    boundary sql_truncate truncation.
Proof.
  apply (upload_wrong_extension_truncates_first sample_db sample_decode
           sample_read_csv (upload_request "notes.txt" "two rows")
           (mkFileStorage "notes.txt" "two rows") empty_world);
    try reflexivity.
  by apply sample_queries_ok.
Defined.



(** C3 (the code departs from the claim).  The Person is stored under id
    0 and the Task is unknown: 'Laundry' is the entity missing from the
    mappings and 'Alice' is in hers, yet the one diagnostic says that Alice
    was not found, and none names Laundry.  The row is skipped and the run
    goes on, as the claim says. *)
Theorem id_zero_person_hides_the_missing_task :
  let persons := persons_dict (dim_person zero_db) in
  let tasks := tasks_dict (dim_task zero_db) in
  let run := process_csv zero_db sample_decode sample_read_csv
               (mkFileStorage "tasks.csv" "laundry") empty_world in
  sample_read_csv "laundry" = inl [alice_laundry_row] ∧
  name_in persons (lookup_label "Person" alice_laundry_row) = true ∧
  name_in tasks (lookup_label "Task" alice_laundry_row) = false ∧
  flashes (snd run)
  = [person_not_found (Str "Alice");
     (warning, "No valid task records to insert.")] ∧
  task_not_found (Str "Laundry") ∉ flashes (snd run).
Proof.
  intros persons tasks run.
  assert (flashes (snd run)
          = [person_not_found (Str "Alice");
             (warning, "No valid task records to insert.")]) as ->
    by (vm_compute; reflexivity).
  split; [reflexivity|]. split; [vm_compute; reflexivity|].
  split; [vm_compute; reflexivity|]. split; [reflexivity|].
  intros H. not_in_list H.
Qed.

(** C5 (the code departs from the claim).  A manual submission that
    validates is an ingestion event.  When the commit of its record fails,
    the [SQLAlchemyError] leaves the view, which has no [try] around the
    [add] and the [commit]: the truncate has been called and committed,
    the populate and the backfill calls are never made, and nothing is
    rolled back. *)
Theorem failed_manual_commit_skips_populate_and_backfill :
  let db := failing_at 5 "disk full" in
  let req := submit_request (Some 30) in
  ingestion_request db req = true ∧
  add_task_record db sample_decode sample_read_csv req empty_world
  = (Raises (SQLAlchemyError "disk full"),
     mkWorld
       (reference_queries
        ++ [(execute sql_truncate, None); (commit, None);
            (add (mkTaskRecord (Date "2024-01-01") (Int 1) (Int 1) (Int 30)),
             None);
            (commit, Some "disk full")])
       [(success, "Successfully truncated stg_fact_housework_tasks!")]).
Proof. vm_compute. split; reflexivity. Qed.

Lemma row_with_absent_name_is_skipped_witness :
  let persons := persons_dict (dim_person sample_db) in
  let tasks := tasks_dict (dim_task sample_db) in
  (∀ rows1 rows2 acc w0,
     iterrows persons tasks (rows1 ++ bob_row :: rows2) acc w0
     = (acc1 <- iterrows persons tasks rows1 acc;;
        flash "Person 'Bob' not found in database." danger;;;
        iterrows persons tasks rows2 acc1) w0) ∧
  ∃ evs msgs,
    process_csv sample_db sample_decode sample_read_csv
      (mkFileStorage "tasks.csv" "two rows") empty_world
    = (Returns tt, mkWorld (calls empty_world ++ evs)
                           (flashes empty_world ++ msgs)) ∧
    ∀ records o, (bulk_save_objects records, o) ∈ evs ->
      Forall (fun rec => ∃ row', row' ∈ [alice_row; bob_row] ∧
                row' ≠ bob_row ∧ is_record_of persons tasks row' rec) records.
Proof.
  apply (row_with_absent_name_is_skipped sample_db sample_decode
           sample_read_csv (mkFileStorage "tasks.csv" "two rows")
           "two rows" [alice_row; bob_row] bob_row
           (Str "Bob") (Str "Dishes") empty_world).
  - reflexivity.
  - reflexivity.
  - reflexivity.
  - reflexivity.
  - left. vm_compute. reflexivity.
Defined.

Lemma no_resolvable_row_gives_a_warning_witness :
  ∃ diagnostics,
    process_csv sample_db sample_decode sample_read_csv
      (mkFileStorage "tasks.csv" "bob") empty_world
    = (Returns tt,
       mkWorld (calls empty_world ++ reference_queries)
               (flashes empty_world ++ diagnostics
                ++ [(warning, "No valid task records to insert.")])) ∧
    Forall2 (fun row m => ∃ p t,
               lookup_label "Person" row = Some p ∧
               lookup_label "Task" row = Some t ∧
               (m = person_not_found p ∨ m = task_not_found t))
            [bob_row] diagnostics.
Proof.
  apply (no_resolvable_row_gives_a_warning sample_db sample_decode
           sample_read_csv (mkFileStorage "tasks.csv" "bob") "bob"
           [bob_row] empty_world).
  - reflexivity.
  - reflexivity.
  - by apply sample_queries_ok.
  - repeat constructor; vm_compute; reflexivity.
Defined.

Lemma stored_operations_run_in_order_witness :
  ∃ r w' truncation rest,
    add_task_record sample_db sample_decode sample_read_csv
      (upload_request "tasks.csv" "two rows") empty_world = (r, w') ∧
    calls w' = calls empty_world ++ reference_queries ++ truncation ++ rest ∧
    boundary sql_truncate truncation ∧
    ((r = Returns (Redirect "add_task_record") ∧
      ∃ ingestion population backfilling,
        rest = ingestion ++ population ++ backfilling ∧
        Forall (fun ev => is_execute ev = false) ingestion ∧
        boundary sql_populate population ∧
        boundary sql_backfill backfilling)
     ∨
     (action_is (form_action (upload_request "tasks.csv" "two rows"))
                "submit_record" = true ∧
      ∃ msg record,
        r = Raises (SQLAlchemyError msg) ∧
        (rest = [(add record, Some msg)] ∨
         rest = [(add record, None); (commit, Some msg)]))).
Proof.
  apply (stored_operations_run_in_order sample_db sample_decode
           sample_read_csv (upload_request "tasks.csv" "two rows")
           empty_world).
  - vm_compute. reflexivity.
  - by apply sample_queries_ok.
Defined.

Lemma nonpositive_minutes_that_validate_are_inserted_witness :
  -5 < 0 ∧
  ∃ record,
    task_duration_minutes record = Int (-5) ∧
    add_task_record sample_db sample_decode sample_read_csv
      (submit_request (Some (-5))) empty_world
    = (Returns (Redirect "add_task_record"),
       mkWorld (calls empty_world ++ reference_queries
                ++ [(execute sql_truncate, None); (commit, None);
                    (add record, None); (commit, None);
                    (execute sql_populate, None); (commit, None);
                    (execute sql_backfill, None); (commit, None)])
               (flashes empty_world
                ++ [(success, "Successfully truncated stg_fact_housework_tasks!");
                    (success, "Task record added successfully!");
                    (success, "Successfully populated fact_housework_tasks!");
                    (success, "Successfully backfilling agg_daily_housework_tasks!")])).
Proof.
  apply (nonpositive_minutes_that_validate_are_inserted sample_db
           sample_decode sample_read_csv (submit_request (Some (-5))) (-5)
           empty_world).
  - reflexivity.
  - reflexivity.
  - reflexivity.
  - lia.
  - vm_compute. reflexivity.
  - exact sample_db_healthy.
Defined.

Lemma other_action_renders_unless_minutes_is_none_witness :
  add_task_record sample_db sample_decode sample_read_csv
    (other_request (Some "refresh") None) empty_world
  = (Raises (TypeError
       "'<=' not supported between instances of 'NoneType' and 'int'"),
     mkWorld (calls empty_world ++ reference_queries)
             (flashes empty_world
              ++ [(danger, "Invalid action or form submission.")])).
Proof.
  apply (other_action_renders_unless_minutes_is_none sample_db sample_decode
           sample_read_csv (other_request (Some "refresh") None) empty_world).
  - reflexivity.
  - reflexivity.
  - reflexivity.
  - by apply sample_queries_ok.
Defined.


Lemma upload_flashes_processed_unconditionally_witness :
  ∃ w1 w2 w' m_populate m_backfill,
    truncate_postgres_tbl sample_db "stg_fact_housework_tasks"
      (called empty_world reference_queries) = (Returns tt, w1) ∧
    process_csv sample_db sample_decode sample_read_csv
      (mkFileStorage "tasks.CSV" "not a table") w1 = (Returns tt, w2) ∧
    add_task_record sample_db sample_decode sample_read_csv
      (upload_request "tasks.CSV" "not a table") empty_world
    = (Returns (Redirect "add_task_record"), w') ∧
    flashes w'
    = flashes w2 ++ [(success, "CSV file processed successfully!");
                     m_populate; m_backfill].
Proof.
  apply (upload_flashes_processed_unconditionally sample_db sample_decode
           sample_read_csv (upload_request "tasks.CSV" "not a table")
           (mkFileStorage "tasks.CSV" "not a table") empty_world).
  - reflexivity.
  - reflexivity.
  - reflexivity.
  - reflexivity.
  - vm_compute. reflexivity.
  - by apply sample_queries_ok.
Defined.

(** The run of that last upload: [process_csv] reports the parser's failure
    as a danger message and the success message follows all the same. *)
Example upload_of_an_unparseable_file :
  flashes (snd (add_task_record sample_db sample_decode sample_read_csv
                  (upload_request "tasks.CSV" "not a table") empty_world))
  = [(success, "Successfully truncated stg_fact_housework_tasks!");
     (danger, "Unexpected error: No columns to parse from file");
     (success, "CSV file processed successfully!");
     (success, "Successfully populated fact_housework_tasks!");
     (success, "Successfully backfilling agg_daily_housework_tasks!")].
Proof. vm_compute. reflexivity. Qed.

(** The spec's example: Alice's row is inserted, Bob's is reported. *)
Example upload_of_two_rows :
  snd (process_csv sample_db sample_decode sample_read_csv
         (mkFileStorage "tasks.csv" "two rows") empty_world)
  = mkWorld
      (reference_queries
       ++ [(bulk_save_objects
              [mkTaskRecord (Str "2024-01-01") (Int 1) (Int 1) (Int 15)], None);
           (commit, None)])
      [(danger, "Person 'Bob' not found in database.");
       (success, "Successfully inserted 1 task records.")].
Proof. vm_compute. reflexivity. Qed.

(** A manual submission with 0 minutes is rejected with both messages and
    nothing is written. *)
Example submit_of_zero_minutes :
  snd (add_task_record sample_db sample_decode sample_read_csv
         (submit_request (Some 0)) empty_world)
  = mkWorld reference_queries
      [(danger, "Invalid action or form submission.");
       (danger, "Minutes field should be greater than 0.")].
Proof. vm_compute. reflexivity. Qed.

(** A storage error inside [process_csv]: the bulk insert fails, the
    session is rolled back and the failure is flashed. *)
Example process_csv_storage_error :
  process_csv (failing_at 2 "connection lost") sample_decode sample_read_csv
    (mkFileStorage "tasks.csv" "alice") empty_world
  = (Returns tt,
     mkWorld
       (reference_queries
        ++ [(bulk_save_objects
               [mkTaskRecord (Str "2024-01-01") (Int 1) (Int 1) (Int 15)],
             Some "connection lost");
            (rollback, None)])
       [(danger, "Error processing CSV: connection lost")]).
Proof. vm_compute. reflexivity. Qed.

(** A failed truncate is rolled back and reported, and the manual record,
    the populate and the backfill calls follow all the same. *)
Example submit_with_a_failed_truncate :
  calls (snd (add_task_record (failing_at 2 "lock timeout") sample_decode
                sample_read_csv (submit_request (Some 30)) empty_world))
  = reference_queries
    ++ [(execute sql_truncate, Some "lock timeout"); (rollback, None);
        (add (mkTaskRecord (Date "2024-01-01") (Int 1) (Int 1) (Int 30)), None);
        (commit, None);
        (execute sql_populate, None); (commit, None);
        (execute sql_backfill, None); (commit, None)].
Proof. vm_compute. reflexivity. Qed.

(** * Further properties of the code *)

Section Case_facts.

Lemma lower_ascii_is_dot c : Ascii.eqb (lower_ascii c) "." = Ascii.eqb c ".".
Proof. destruct c as [[] [] [] [] [] [] [] []]; reflexivity. Qed.

Lemma lower_ascii_twice c : lower_ascii (lower_ascii c) = lower_ascii c.
Proof. destruct c as [[] [] [] [] [] [] [] []]; reflexivity. Qed.

Lemma lower_twice s : lower (lower s) = lower s.
Proof.
  induction s as [|c r IH]; simpl; [done|].
  by rewrite lower_ascii_twice, IH.
Qed.

Lemma contains_dot_lower s : contains_dot (lower s) = contains_dot s.
Proof.
  induction s as [|c r IH]; simpl; [done|].
  by rewrite lower_ascii_is_dot, IH.
Qed.

Lemma split_last_dot_lower s :
  split_last_dot (lower s)
  = match split_last_dot s with
    | Some (h, t) => Some (lower h, lower t)
    | None => None
    end.
Proof.
  induction s as [|c r IH]; simpl; [done|].
  rewrite IH, lower_ascii_is_dot.
  destruct (split_last_dot r) as [[h t]|]; [done|].
  by destruct (Ascii.eqb c ".").
Qed.

Lemma allowed_file_lower s : allowed_file (lower s) = allowed_file s.
Proof.
  unfold allowed_file, rsplit_dot_1.
  rewrite contains_dot_lower, split_last_dot_lower.
  destruct (split_last_dot s) as [[h t]|]; simpl; [|done].
  by rewrite lower_twice.
Qed.

End Case_facts.

(** X2.  [allowed_file] looks at no letter's case, in the extension or
    anywhere else: two names that differ only in case get the same
    verdict. *)
Theorem allowed_file_ignores_case a b :
  lower a = lower b -> allowed_file a = allowed_file b.
Proof.
  intros H. rewrite <- (allowed_file_lower a), <- (allowed_file_lower b).
  by rewrite H.
Qed.

(** X3.  The dictionary built from a reference table maps a name to the id
    of the last row that carries it, and holds no other name. *)
Theorem reference_dict_keeps_the_last_row :
  (∀ rows name,
     persons_dict rows !! name
     = person_pk <$> last (filter (fun p => person_name p = name) rows)) ∧
  (∀ rows name,
     tasks_dict rows !! name
     = task_pk <$> last (filter (fun t => task_name t = name) rows)).
Proof.
  split; intros rows name.
  - unfold persons_dict. induction rows as [|p rows IH] using rev_ind.
    + simpl. by rewrite lookup_empty.
    + rewrite fold_left_app, filter_app. simpl.
      rewrite filter_cons, filter_nil.
      destruct (decide (person_name p = name)) as [<-|Hne].
      * by rewrite lookup_insert_eq, last_snoc.
      * rewrite lookup_insert_ne by done. by rewrite app_nil_r.
  - unfold tasks_dict. induction rows as [|t rows IH] using rev_ind.
    + simpl. by rewrite lookup_empty.
    + rewrite fold_left_app, filter_app. simpl.
      rewrite filter_cons, filter_nil.
      destruct (decide (task_name t = name)) as [<-|Hne].
      * by rewrite lookup_insert_eq, last_snoc.
      * rewrite lookup_insert_ne by done. by rewrite app_nil_r.
Qed.

Section More_loop_facts.

Variables persons tasks : gmap string Z.

(** The loop body raises the [KeyError] of the column the row lacks, and
    flashes nothing. *)
Lemma validate_row_lacks row k acc w :
  lacks_column persons tasks row k ->
  validate_row persons tasks row acc w = (Raises (KeyError k), w).
Proof.
  intros Hlacks. unfold validate_row, bind, getitem.
  destruct Hlacks as [Hp|Hp Ht|Hres Hd|Hres Hd Hm].
  - by rewrite Hp.
  - apply bool_decide_eq_true in Hp as [p Hp]. by rewrite Hp, Ht.
  - unfold resolves in Hres.
    destruct (lookup_label "Person" row) as [p|]; [|done].
    destruct (lookup_label "Task" row) as [t|]; [|done].
    apply andb_true_iff in Hres as [Hpid Htid]. simpl.
    rewrite Hpid, Htid. simpl. by rewrite Hd.
  - unfold resolves in Hres.
    destruct (lookup_label "Person" row) as [p|]; [|done].
    destruct (lookup_label "Task" row) as [t|]; [|done].
    apply andb_true_iff in Hres as [Hpid Htid]. simpl.
    rewrite Hpid, Htid. simpl.
    apply bool_decide_eq_true in Hd as [d Hd]. by rewrite Hd, Hm.
Qed.


(** The only messages the loop flashes are not-found diagnostics. *)
Lemma validate_row_messages row acc w :
  ∃ r msgs, validate_row persons tasks row acc w = (r, flashed w msgs) ∧
    Forall is_not_found msgs ∧
    match r with
    | Returns acc' => ∃ new, acc' = acc ++ new
    | Raises e => ∃ k, e = KeyError k
    end.
Proof.
  unfold validate_row, bind, getitem.
  destruct (lookup_label "Person" row) as [p|];
    [|exists (Raises (KeyError "Person")), []; rewrite flashed_nil; eauto].
  simpl.
  destruct (lookup_label "Task" row) as [t|];
    [|exists (Raises (KeyError "Task")), []; rewrite flashed_nil; eauto].
  simpl.
  destruct (truthy (dict_get persons p)); simpl.
  - destruct (truthy (dict_get tasks t)); simpl.
    + destruct (lookup_label "Date" row) as [d|];
        [|exists (Raises (KeyError "Date")), []; rewrite flashed_nil; eauto].
      simpl.
      destruct (lookup_label "Task Duration Minutes" row) as [m|];
        [|exists (Raises (KeyError "Task Duration Minutes")), [];
          rewrite flashed_nil; eauto].
      eexists (Returns _), []. rewrite flashed_nil. eauto.
    + exists (Returns acc), [task_not_found t]. split; [done|]. split.
      * repeat constructor. exists t. by right.
      * exists []. by rewrite app_nil_r.
  - exists (Returns acc), [person_not_found p]. split; [done|]. split.
    + repeat constructor. exists p. by left.
    + exists []. by rewrite app_nil_r.
Qed.

Lemma iterrows_messages df acc w :
  ∃ r msgs, iterrows persons tasks df acc w = (r, flashed w msgs) ∧
    Forall is_not_found msgs ∧
    match r with
    | Returns acc' => ∃ new, acc' = acc ++ new
    | Raises e => ∃ k, e = KeyError k
    end.
Proof.
  revert acc w. induction df as [|row df IH]; intros acc w; simpl.
  - exists (Returns acc), []. rewrite flashed_nil. split; [done|].
    split; [done|]. exists []. by rewrite app_nil_r.
  - destruct (validate_row_messages row acc w) as (r & msgs & Hrun & Hmsgs & Hr).
    destruct r as [acc1|e].
    + destruct Hr as (new1 & ->).
      erewrite bind_run_returns by exact Hrun.
      destruct (IH (acc ++ new1) (flashed w msgs))
        as (r2 & msgs2 & Hrun2 & Hmsgs2 & Hr2).
      exists r2, (msgs ++ msgs2). rewrite <- flashed_flashed.
      split; [done|]. split; [by apply Forall_app|].
      destruct r2 as [acc2|e2]; [|done].
      destruct Hr2 as (new2 & ->). exists (new1 ++ new2). by rewrite app_assoc.
    + erewrite bind_run_raises by exact Hrun. eauto.
Qed.


End More_loop_facts.

Section Choice_facts.

(** A value the person dropdown accepts is the key of a person. *)
Lemma valid_choice_person rows data :
  valid_choice (choices_of_persons rows) data = true ->
  ∃ p, p ∈ rows ∧ data = Some (person_pk p).
Proof.
  destruct data as [z|]; simpl; [|done].
  intros [[k n] [Hin Hk]]%existsb_exists.
  apply in_map_iff in Hin as (p & [= <- <-] & Hp).
  apply Z.eqb_eq in Hk as <-. exists p. split; [|done].
  by apply list_elem_of_In.
Qed.

Lemma valid_choice_task rows data :
  valid_choice (choices_of_tasks rows) data = true ->
  ∃ t, t ∈ rows ∧ data = Some (task_pk t).
Proof.
  destruct data as [z|]; simpl; [|done].
  intros [[k n] [Hin Hk]]%existsb_exists.
  apply in_map_iff in Hin as (t & [= <- <-] & Ht).
  apply Z.eqb_eq in Hk as <-. exists t. split; [|done].
  by apply list_elem_of_In.
Qed.

End Choice_facts.

(** Brings the index of a call in a hypothesis to the form [n + k]. *)
Ltac fault_index F :=
  simpl in F; rewrite ?length_app in F; simpl in F;
  rewrite <- ?Nat.add_assoc in F; simpl in F.

(** Splits a stored-procedure wrapper on what the database does with its
    two calls. *)
Ltac wrapper_cases db w :=
  destruct w as [cs fs];
  unfold try_except, bind, session_call, session_rollback, flash, log_call;
  simpl;
  destruct (fault db (length cs)) as [msg1|]; simpl;
  [ eexists _, _; split; [solve_run | apply procedure_call_failed]
  | match goal with
    | |- context [fault db ?n] => destruct (fault db n) as [msg2|]; simpl
    end;
    [ eexists _, _; split; [solve_run | apply procedure_commit_failed]
    | eexists _, _; split; [solve_run | apply procedure_done] ] ].

Section Further.

Variable db : Database.
Variable decode_utf8 : string -> string + string.
Variable read_csv : string -> DataFrame + string.

(** X4.  Asked to truncate any table but the staging table,
    [truncate_postgres_tbl] issues no call on the session: it flashes
    'Invalid table name: ...' with the name it was given and returns. *)
Theorem truncate_refuses_other_tables tbl_name w :
  tbl_name ≠ "stg_fact_housework_tasks" ->
  truncate_postgres_tbl db tbl_name w
  = (Returns tt,
     mkWorld (calls w)
             (flashes w ++ [(danger, "Invalid table name: " +:+ tbl_name)])).
Proof.
  intros Hname. unfold truncate_postgres_tbl, try_except.
  apply String.eqb_neq in Hname. by rewrite Hname.
Qed.

(** X5.  On the staging table, [truncate_postgres_tbl] never raises and
    flashes exactly one message, which tells what the log shows: the
    success message after the call and its commit, or the error message
    with the database's text after a failed call or commit and the
    rollback. *)
Theorem truncate_reports_what_happened w :
  ∃ evs m,
    truncate_postgres_tbl db "stg_fact_housework_tasks" w
    = (Returns tt, mkWorld (calls w ++ evs) (flashes w ++ [m])) ∧
    procedure_outcome sql_truncate
      "Successfully truncated stg_fact_housework_tasks!"
      "Error while truncate stg_fact_housework_tasks: " evs m.
Proof. unfold truncate_postgres_tbl. simpl. wrapper_cases db w. Qed.

(** X6.  [populate_fact_housework_tasks] never raises and flashes exactly
    one message, which tells what the log shows: success after the call
    and its commit, the error with the database's text after a failed
    call or commit and the rollback. *)
Theorem populate_reports_what_happened w :
  ∃ evs m,
    populate_fact_housework_tasks db w
    = (Returns tt, mkWorld (calls w ++ evs) (flashes w ++ [m])) ∧
    procedure_outcome sql_populate
      "Successfully populated fact_housework_tasks!"
      "Error while populate fact_housework_tasks: " evs m.
Proof. unfold populate_fact_housework_tasks. wrapper_cases db w. Qed.

(** X7.  [backfill_agg_daily_housework_tasks] never raises and flashes
    exactly one message, which tells what the log shows: success after the
    call and its commit, the error with the database's text after a failed
    call or commit and the rollback. *)
Theorem backfill_reports_what_happened w :
  ∃ evs m,
    backfill_agg_daily_housework_tasks db w
    = (Returns tt, mkWorld (calls w ++ evs) (flashes w ++ [m])) ∧
    procedure_outcome sql_backfill
      "Successfully backfilling agg_daily_housework_tasks!"
      "Error while backfilling agg_daily_housework_tasks: " evs m.
Proof. unfold backfill_agg_daily_housework_tasks. wrapper_cases db w. Qed.

(** X8.  [process_csv] always returns.  Every message it flashes before
    its last one is a per-row not-found diagnostic, and its last message
    goes with the calls it added to the session log in one of seven ways.
    So the success message is flashed only after a bulk insert and its
    commit both went through, and then it carries the number of records of
    that insert; a bulk insert is never made of an empty list; every
    failed call is followed by a rollback and nothing else. *)
Theorem process_csv_outcomes csv_file w :
  ∃ evs msgs m,
    process_csv db decode_utf8 read_csv csv_file w
    = (Returns tt, mkWorld (calls w ++ evs) (flashes w ++ msgs ++ [m])) ∧
    Forall is_not_found msgs ∧
    csv_outcome evs m.
Proof.
  unfold process_csv, try_except, process_csv_try.
  unfold Person_query_all, Task_query_all, bind, ret.
  step_call db m1.
  { unfold session_rollback, flash, log_call. simpl.
    eexists _, [], _. split; [solve_run|]. split; [done|].
    apply csv_person_query_failed. }
  step_call db m2.
  { unfold session_rollback, flash, log_call. simpl.
    eexists _, [], _. split; [solve_run|]. split; [done|].
    apply csv_task_query_failed. }
  destruct (decode_utf8 (stream csv_file)) as [text|bad]; simpl.
  2:{ unfold flash. simpl. eexists _, [], _. split; [solve_run|].
      split; [done|]. apply csv_unexpected. }
  destruct (read_csv text) as [df|bad]; simpl.
  2:{ unfold flash. simpl. eexists _, [], _. split; [solve_run|].
      split; [done|]. apply csv_unexpected. }
  match goal with
  | |- context [iterrows ?ps ?ts df [] ?w1] =>
      destruct (iterrows_messages ps ts df [] w1)
        as (r & msgs & Hrun & Hmsgs & Hr);
      rewrite Hrun; clear Hrun
  end.
  destruct r as [recs|e]; simpl.
  2:{ destruct Hr as [k ->]. unfold flash. simpl.
      eexists _, msgs, _. split; [solve_run|]. split; [done|].
      apply csv_unexpected. }
  destruct Hr as (new & ->). simpl. destruct new as [|rec new].
  { unfold flash; simpl. eexists _, msgs, _. split; [solve_run|].
    split; [done|]. apply csv_no_valid_record. }
  step_call db m3.
  { unfold session_rollback, flash, log_call. simpl.
    eexists _, msgs, _. split; [solve_run|]. split; [done|].
    by apply csv_insert_failed. }
  step_call db m4.
  { unfold session_rollback, flash, log_call. simpl.
    eexists _, msgs, _. split; [solve_run|]. split; [done|].
    by apply csv_commit_failed. }
  unfold flash; simpl. eexists _, msgs, _. split; [solve_run|].
  split; [done|]. by apply (csv_inserted (rec :: new)).
Qed.

(** X9.  Whatever the file and the database do, a record that
    [process_csv] hands to the bulk insert refers to a row of [dim_person]
    and to a row of [dim_task]: its two ids are primary keys found in the
    reference tables. *)
Theorem process_csv_inserts_only_known_ids csv_file w :
  ∃ evs msgs,
    process_csv db decode_utf8 read_csv csv_file w
    = (Returns tt, mkWorld (calls w ++ evs) (flashes w ++ msgs)) ∧
    ∀ records o, (bulk_save_objects records, o) ∈ evs ->
      Forall (fun rec => ∃ p t,
                p ∈ dim_person db ∧ t ∈ dim_task db ∧
                person_id rec = Int (person_pk p) ∧
                task_id rec = Int (task_pk t)) records.
Proof.
  destruct (process_csv_run db decode_utf8 read_csv csv_file w)
    as (evs & msgs & m & Hrun & _ & Hrecords).
  exists evs, (msgs ++ [m]). split; [exact Hrun|].
  intros records o Hin.
  destruct (Hrecords records o Hin) as (text & df & _ & _ & Hall).
  eapply Forall_impl; [exact Hall|].
  intros rec (row & _ & p & t & pid & tid & _ & Hpid & _ & Htid & _ & _ & Hp & Ht).
  apply persons_dict_lookup in Hpid as (prow & Hprow & _ & <-).
  apply tasks_dict_lookup in Htid as (trow & Htrow & _ & <-).
  by exists prow, trow.
Qed.

(** X10.  A file that cannot be decoded or parsed is reported as
    'Unexpected error: ...' with the library's text.  Nothing but the two
    reference queries reaches the session: there is no insert and, the
    failure not being a storage error, no rollback either. *)
Theorem process_csv_unreadable_file csv_file msg w :
  reference_queries_ok db w ->
  decode_utf8 (stream csv_file) = inr msg
  ∨ (∃ text, decode_utf8 (stream csv_file) = inl text ∧
             read_csv text = inr msg) ->
  process_csv db decode_utf8 read_csv csv_file w
  = (Returns tt,
     mkWorld (calls w ++ reference_queries)
             (flashes w ++ [(danger, "Unexpected error: " +:+ msg)])).
Proof.
  intros Hrefs Hbad. unfold process_csv, try_except, process_csv_try.
  rewrite reference_queries_run by done.
  destruct Hbad as [Hdecode|(text & Hdecode & Hread)].
  - by rewrite Hdecode.
  - rewrite Hdecode. unfold bind at 1. simpl. by rewrite Hread.
Qed.

(** X11.  A column the loop reads that is missing stops the whole batch
    at the first row that needs it.  When the rows before that row have
    their Person and Task cells and do not resolve, each of them has got
    its not-found diagnostic; then the [KeyError] is reported as
    'Unexpected error: ...' with the quoted column name, the rows after it
    are not looked at, and nothing is inserted: the session sees the two
    reference queries only. *)
Theorem process_csv_missing_column_stops_the_batch
    csv_file text rows1 row rows2 k w :
  decode_utf8 (stream csv_file) = inl text ->
  read_csv text = inl (rows1 ++ row :: rows2) ->
  reference_queries_ok db w ->
  let persons := persons_dict (dim_person db) in
  let tasks := tasks_dict (dim_task db) in
  Forall (fun r => has_label "Person" r = true ∧
                   has_label "Task" r = true ∧
                   resolves persons tasks r = false) rows1 ->
  lacks_column persons tasks row k ->
  ∃ diagnostics,
    Forall2 (fun r m => ∃ p t,
               lookup_label "Person" r = Some p ∧
               lookup_label "Task" r = Some t ∧
               (m = person_not_found p ∨ m = task_not_found t))
            rows1 diagnostics ∧
    process_csv db decode_utf8 read_csv csv_file w
    = (Returns tt,
       mkWorld (calls w ++ reference_queries)
               (flashes w ++ diagnostics
                ++ [(danger, "Unexpected error: '" +:+ k +:+ "'")])).
Proof.
  intros Hdecode Hread Hrefs persons tasks Hrows1 Hlacks.
  destruct (iterrows_unresolved persons tasks rows1 []
              (called w reference_queries) Hrows1) as (ms & Hrun & Hms).
  exists ms. split; [exact Hms|].
  unfold process_csv, try_except.
  rewrite (process_csv_try_parsed db decode_utf8 read_csv csv_file text
             (rows1 ++ row :: rows2)) by done.
  fold persons tasks.
  erewrite bind_run_raises.
  2:{ rewrite iterrows_app.
      erewrite bind_run_returns by exact Hrun.
      simpl. erewrite bind_run_raises by by apply validate_row_lacks.
      reflexivity. }
  unfold flash. solve_run.
Qed.


(** X13.  A GET, whatever fields and action it carries, reads the two
    reference tables and renders the form with their rows as choices; it
    flashes nothing and issues no other call. *)
Theorem get_only_renders req w :
  method req = GET ->
  reference_queries_ok db w ->
  add_task_record db decode_utf8 read_csv req w
  = (Returns (Render "task_record_form.html"
                (mkForm req (choices_of_persons (dim_person db))
                            (choices_of_tasks (dim_task db)))),
     mkWorld (calls w ++ reference_queries) (flashes w)).
Proof.
  intros Hget Hrefs. unfold add_task_record.
  rewrite reference_queries_run by done. by rewrite Hget.
Qed.

(** X14.  The two queries that fill the dropdowns run outside any [try]:
    when one of them fails, the view raises the [SQLAlchemyError] for every
    request, before it looks at the method or the action; nothing is
    flashed, nothing is rolled back and no further call is made. *)
Theorem view_raises_when_a_reference_query_fails req msg w :
  fault db (length (calls w)) = Some msg
  ∨ (fault db (length (calls w)) = None ∧
     fault db (S (length (calls w))) = Some msg) ->
  ∃ evs,
    add_task_record db decode_utf8 read_csv req w
    = (Raises (SQLAlchemyError msg), mkWorld (calls w ++ evs) (flashes w)) ∧
    (evs = [(query_all "dim_person", Some msg)]
     ∨ evs = [(query_all "dim_person", None);
              (query_all "dim_task", Some msg)]).
Proof.
  intros Hfault. unfold add_task_record, Person_query_all, Task_query_all.
  unfold bind at 1 2.
  destruct Hfault as [Hfirst|[Hfirst Hsecond]].
  - rewrite (session_call_failed db _ w msg Hfirst).
    exists [(query_all "dim_person", Some msg)]. by split; [|left].
  - rewrite (session_call_ok db _ w Hfirst). simpl.
    unfold bind at 1 2. rewrite (session_call_failed db _ _ msg).
    + exists [(query_all "dim_person", None); (query_all "dim_task", Some msg)].
      split; [|by right]. unfold called. simpl. by rewrite <- app_assoc.
    + simpl. rewrite length_app. simpl. by rewrite Nat.add_1_r.
Qed.

(** X15.  An upload request without a file (or with a file that has no
    name) is turned down before the staging table is touched: only the
    generic message is flashed, the session sees the two reference queries
    only, and the form is rendered again, unless the minutes field holds
    no integer, in which case the comparison with 0 raises. *)
Theorem upload_without_a_file_is_turned_down req w :
  method req = POST ->
  action_is (form_action req) "upload_csv" = true ->
  truthy_file (posted_file req) = false ->
  reference_queries_ok db w ->
  add_task_record db decode_utf8 read_csv req w
  = (match posted_minutes req with
     | Some _ =>
         Returns (Render "task_record_form.html"
                    (mkForm req (choices_of_persons (dim_person db))
                                (choices_of_tasks (dim_task db))))
     | None =>
         Raises (TypeError
           "'<=' not supported between instances of 'NoneType' and 'int'")
     end,
     mkWorld (calls w ++ reference_queries)
             (flashes w ++ [(danger, "Invalid action or form submission.")])).
Proof.
  intros Hpost Haction Hfile Hrefs.
  unfold add_task_record. rewrite reference_queries_run by done.
  rewrite Hpost, Haction, Hfile.
  assert (action_is (form_action req) "submit_record" = false) as Hsubmit.
  { destruct (form_action req) as [a|]; [|done]. simpl in *.
    apply String.eqb_eq in Haction as ->. reflexivity. }
  rewrite Hsubmit. simpl. unfold bind, flash, le_zero. simpl.
  destruct (posted_minutes req) as [z|]; simpl; [|reflexivity].
  by rewrite andb_false_r.
Qed.

(** X16.  A manual submission that does not validate writes nothing: the
    session sees the two reference queries only.  It flashes the generic
    message, and the minutes message as well exactly when the minutes
    field holds an integer that is at most 0; the form is rendered again.
    When the minutes field holds no integer the comparison with 0 raises
    after the generic message. *)
Theorem invalid_submission_writes_nothing req w :
  method req = POST ->
  action_is (form_action req) "submit_record" = true ->
  validate (mkForm req (choices_of_persons (dim_person db))
                       (choices_of_tasks (dim_task db))) = false ->
  reference_queries_ok db w ->
  add_task_record db decode_utf8 read_csv req w
  = (match posted_minutes req with
     | Some _ =>
         Returns (Render "task_record_form.html"
                    (mkForm req (choices_of_persons (dim_person db))
                                (choices_of_tasks (dim_task db))))
     | None =>
         Raises (TypeError
           "'<=' not supported between instances of 'NoneType' and 'int'")
     end,
     mkWorld (calls w ++ reference_queries)
             (flashes w
              ++ (danger, "Invalid action or form submission.")
                 :: match posted_minutes req with
                    | Some minutes =>
                        if (minutes <=? 0)%Z
                        then [(danger, "Minutes field should be greater than 0.")]
                        else []
                    | None => []
                    end)).
Proof.
  intros Hpost Haction Hinvalid Hrefs.
  unfold add_task_record. rewrite reference_queries_run by done.
  unfold validate_on_submit, is_submitted. cbn [request].
  rewrite Hpost, Haction, Hinvalid.
  assert (action_is (form_action req) "upload_csv" = false) as Hupload.
  { destruct (form_action req) as [a|]; [|done]. simpl in *.
    apply String.eqb_eq in Haction as ->. reflexivity. }
  rewrite Hupload. simpl. unfold bind, flash, le_zero, ret. simpl.
  destruct (posted_minutes req) as [minutes|]; simpl; [|reflexivity].
  destruct (minutes <=? 0)%Z; simpl; [|reflexivity].
  by rewrite <- app_assoc.
Qed.

(** X17.  A manual submission that validates, on a database that answers
    every call, adds exactly one record, between the truncate and the
    populate calls.  The record carries the form's date and duration, the
    duration is not 0, and its person and task ids are primary keys of rows
    of the reference tables. *)
Theorem valid_submission_inserts_the_form req w :
  method req = POST ->
  action_is (form_action req) "submit_record" = true ->
  validate (mkForm req (choices_of_persons (dim_person db))
                       (choices_of_tasks (dim_task db))) = true ->
  healthy db ->
  ∃ day p t minutes,
    posted_date req = Some day ∧
    p ∈ dim_person db ∧ posted_person req = Some (person_pk p) ∧
    t ∈ dim_task db ∧ posted_task req = Some (task_pk t) ∧
    posted_minutes req = Some minutes ∧ minutes ≠ 0 ∧
    add_task_record db decode_utf8 read_csv req w
    = (Returns (Redirect "add_task_record"),
       mkWorld (calls w ++ reference_queries
                ++ [(execute sql_truncate, None); (commit, None);
                    (add (mkTaskRecord (Date day) (Int (person_pk p))
                                       (Int (task_pk t)) (Int minutes)), None);
                    (commit, None);
                    (execute sql_populate, None); (commit, None);
                    (execute sql_backfill, None); (commit, None)])
               (flashes w
                ++ [(success, "Successfully truncated stg_fact_housework_tasks!");
                    (success, "Task record added successfully!");
                    (success, "Successfully populated fact_housework_tasks!");
                    (success, "Successfully backfilling agg_daily_housework_tasks!")])).
Proof.
  intros Hpost Haction Hvalid Hdb.
  pose proof Hvalid as Hfields. unfold validate in Hfields.
  cbn [request person_choices task_choices] in Hfields.
  rewrite !andb_true_iff in Hfields.
  destruct Hfields as [[[[[_ Hday] [Hperson _]] [Htask _]] Hminutes] _].
  destruct (posted_date req) as [day|] eqn:Eday; [|done].
  apply valid_choice_person in Hperson as (p & Hp & Eperson).
  apply valid_choice_task in Htask as (t & Ht & Etask).
  destruct (posted_minutes req) as [minutes|] eqn:Eminutes; [|done].
  exists day, p, t, minutes.
  split; [done|]. split; [done|]. split; [done|]. split; [done|].
  split; [done|]. split; [done|]. split.
  { simpl in Hminutes. by apply negb_true_iff, Z.eqb_neq in Hminutes. }
  unfold add_task_record.
  rewrite reference_queries_run by by apply healthy_reference_queries_ok.
  unfold validate_on_submit, is_submitted. cbn [request].
  rewrite Hpost, Haction, Hvalid. simpl.
  unfold truncate_postgres_tbl, populate_fact_housework_tasks,
    backfill_agg_daily_housework_tasks, try_except, bind. simpl.
  repeat (rewrite session_call_ok by apply Hdb; simpl).
  rewrite Eday, Eperson, Etask, Eminutes. unfold ret. simpl.
  unfold flashed, called. simpl. by rewrite <- !app_assoc.
Qed.

(** X18.  The [add] and the [commit] of a manual record run outside any
    [try].  When the truncate went through and the database fails one of
    them, the view raises the [SQLAlchemyError]: the session is not rolled
    back, the populate and backfill calls are not made, and the only
    message flashed is the one of the truncate, which is already
    committed. *)
Theorem failed_manual_insert_is_not_caught req msg w :
  method req = POST ->
  action_is (form_action req) "submit_record" = true ->
  validate (mkForm req (choices_of_persons (dim_person db))
                       (choices_of_tasks (dim_task db))) = true ->
  reference_queries_ok db w ->
  fault db (length (calls w) + 2) = None ->
  fault db (length (calls w) + 3) = None ->
  fault db (length (calls w) + 4) = Some msg
  ∨ (fault db (length (calls w) + 4) = None ∧
     fault db (length (calls w) + 5) = Some msg) ->
  ∃ record attempt,
    add_task_record db decode_utf8 read_csv req w
    = (Raises (SQLAlchemyError msg),
       mkWorld (calls w ++ reference_queries
                ++ [(execute sql_truncate, None); (commit, None)] ++ attempt)
               (flashes w
                ++ [(success, "Successfully truncated stg_fact_housework_tasks!")])) ∧
    (attempt = [(add record, Some msg)]
     ∨ attempt = [(add record, None); (commit, Some msg)]).
Proof.
  intros Hpost Haction Hvalid Hrefs Hexecute Hcommit Hfault.
  unfold add_task_record. rewrite reference_queries_run by done.
  unfold validate_on_submit, is_submitted. cbn [request].
  rewrite Hpost, Haction, Hvalid. simpl.
  unfold truncate_postgres_tbl, try_except, bind. simpl.
  step_call db m1; [fault_index F; congruence|].
  step_call db m2; [fault_index F0; congruence|].
  unfold flash. simpl.
  step_call db m3.
  - fault_index F1. destruct Hfault as [Hfault|[Hfault _]]; [|congruence].
    rewrite Hfault in F1. injection F1 as <-.
    eexists _, [(add _, Some msg)]. split; [|by left].
    unfold flashed, called. simpl. by rewrite <- !app_assoc.
  - fault_index F1. destruct Hfault as [Hfault|[_ Hfault]]; [congruence|].
    step_call db m4.
    + fault_index F2. rewrite Hfault in F2. injection F2 as <-.
      eexists _, [(add _, None); (commit, Some msg)]. split; [|by right].
      unfold flashed, called. simpl. by rewrite <- !app_assoc.
    + fault_index F2. congruence.
Qed.

End Further.

(** * The further properties on concrete runs *)

Lemma allowed_file_ignores_case_witness :
  allowed_file "Report.CSV" = allowed_file "REPORT.csv".
Proof. apply allowed_file_ignores_case. reflexivity. Defined.

Lemma truncate_refuses_other_tables_witness :
  truncate_postgres_tbl sample_db "dim_person" empty_world
  = (Returns tt,
     mkWorld (calls empty_world)
             (flashes empty_world
              ++ [(danger, "Invalid table name: " +:+ "dim_person")])).
Proof. apply truncate_refuses_other_tables. discriminate. Defined.

Lemma process_csv_unreadable_file_witness :
  process_csv sample_db sample_decode sample_read_csv
    (mkFileStorage "tasks.csv" "not a table") empty_world
  = (Returns tt,
     mkWorld (calls empty_world ++ reference_queries)
             (flashes empty_world
              ++ [(danger, "Unexpected error: "
                           +:+ "No columns to parse from file")])).
Proof.
  apply process_csv_unreadable_file.
  - by apply sample_queries_ok.
  - right. exists "not a table". split; reflexivity.
Defined.

Lemma process_csv_missing_column_stops_the_batch_witness :
  let csv_file := mkFileStorage "tasks.csv" "no date column" in
  let read := read_frame ([undated_bob_row] ++ undated_row :: [undated_row]) in
  ∃ diagnostics,
    Forall2 (fun r m => ∃ p t,
               lookup_label "Person" r = Some p ∧
               lookup_label "Task" r = Some t ∧
               (m = person_not_found p ∨ m = task_not_found t))
            [undated_bob_row] diagnostics ∧
    process_csv sample_db sample_decode read csv_file empty_world
    = (Returns tt,
       mkWorld (calls empty_world ++ reference_queries)
               (flashes empty_world ++ diagnostics
                ++ [(danger, "Unexpected error: '" +:+ "Date" +:+ "'")])).
Proof.
  apply (process_csv_missing_column_stops_the_batch sample_db sample_decode
           (read_frame ([undated_bob_row] ++ undated_row :: [undated_row]))
           (mkFileStorage "tasks.csv" "no date column") "no date column"
           [undated_bob_row] undated_row [undated_row] "Date" empty_world).
  - reflexivity.
  - reflexivity.
  - by apply sample_queries_ok.
  - repeat constructor; vm_compute; reflexivity.
  - apply lacks_date; vm_compute; reflexivity.
Defined.


Lemma get_only_renders_witness :
  let req := mkRequest GET (Some "submit_record") true (Some "2024-01-01")
                       (Some 1) (Some 1) (Some 30) None in
  add_task_record sample_db sample_decode sample_read_csv req empty_world
  = (Returns (Render "task_record_form.html"
                (mkForm req (choices_of_persons (dim_person sample_db))
                            (choices_of_tasks (dim_task sample_db)))),
     mkWorld (calls empty_world ++ reference_queries) (flashes empty_world)).
Proof.
  apply get_only_renders.
  - reflexivity.
  - by apply sample_queries_ok.
Defined.

Lemma view_raises_when_a_reference_query_fails_witness :
  ∃ evs,
    add_task_record (failing_at 1 "server closed the connection")
      sample_decode sample_read_csv (submit_request (Some 30)) empty_world
    = (Raises (SQLAlchemyError "server closed the connection"),
       mkWorld (calls empty_world ++ evs) (flashes empty_world)) ∧
    (evs = [(query_all "dim_person", Some "server closed the connection")]
     ∨ evs = [(query_all "dim_person", None);
              (query_all "dim_task", Some "server closed the connection")]).
Proof.
  apply view_raises_when_a_reference_query_fails.
  right. split; reflexivity.
Defined.

Lemma upload_without_a_file_is_turned_down_witness :
  let req := mkRequest POST (Some "upload_csv") true None None None
                       (Some 0) None in
  add_task_record sample_db sample_decode sample_read_csv req empty_world
  = (Returns (Render "task_record_form.html"
                (mkForm req (choices_of_persons (dim_person sample_db))
                            (choices_of_tasks (dim_task sample_db)))),
     mkWorld (calls empty_world ++ reference_queries)
             (flashes empty_world
              ++ [(danger, "Invalid action or form submission.")])).
Proof.
  apply (upload_without_a_file_is_turned_down sample_db sample_decode
           sample_read_csv
           (mkRequest POST (Some "upload_csv") true None None None
                      (Some 0) None) empty_world).
  - reflexivity.
  - reflexivity.
  - reflexivity.
  - by apply sample_queries_ok.
Defined.

Lemma invalid_submission_writes_nothing_witness :
  let req := mkRequest POST (Some "submit_record") true (Some "2024-01-01")
                       (Some 7) (Some 1) (Some 30) None in
  add_task_record sample_db sample_decode sample_read_csv req empty_world
  = (Returns (Render "task_record_form.html"
                (mkForm req (choices_of_persons (dim_person sample_db))
                            (choices_of_tasks (dim_task sample_db)))),
     mkWorld (calls empty_world ++ reference_queries)
             (flashes empty_world
              ++ [(danger, "Invalid action or form submission.")])).
Proof.
  apply (invalid_submission_writes_nothing sample_db sample_decode
           sample_read_csv
           (mkRequest POST (Some "submit_record") true (Some "2024-01-01")
                      (Some 7) (Some 1) (Some 30) None) empty_world).
  - reflexivity.
  - reflexivity.
  - vm_compute. reflexivity.
  - by apply sample_queries_ok.
Defined.

Lemma valid_submission_inserts_the_form_witness :
  ∃ day p t minutes,
    posted_date (submit_request (Some 30)) = Some day ∧
    p ∈ dim_person sample_db ∧
    posted_person (submit_request (Some 30)) = Some (person_pk p) ∧
    t ∈ dim_task sample_db ∧
    posted_task (submit_request (Some 30)) = Some (task_pk t) ∧
    posted_minutes (submit_request (Some 30)) = Some minutes ∧ minutes ≠ 0 ∧
    add_task_record sample_db sample_decode sample_read_csv
      (submit_request (Some 30)) empty_world
    = (Returns (Redirect "add_task_record"),
       mkWorld (calls empty_world ++ reference_queries
                ++ [(execute sql_truncate, None); (commit, None);
                    (add (mkTaskRecord (Date day) (Int (person_pk p))
                                       (Int (task_pk t)) (Int minutes)), None);
                    (commit, None);
                    (execute sql_populate, None); (commit, None);
                    (execute sql_backfill, None); (commit, None)])
               (flashes empty_world
                ++ [(success, "Successfully truncated stg_fact_housework_tasks!");
                    (success, "Task record added successfully!");
                    (success, "Successfully populated fact_housework_tasks!");
                    (success, "Successfully backfilling agg_daily_housework_tasks!")])).
Proof.
  apply valid_submission_inserts_the_form.
  - reflexivity.
  - reflexivity.
  - vm_compute. reflexivity.
  - exact sample_db_healthy.
Defined.

Lemma failed_manual_insert_is_not_caught_witness :
  ∃ record attempt,
    add_task_record (failing_at 5 "disk full") sample_decode sample_read_csv
      (submit_request (Some 30)) empty_world
    = (Raises (SQLAlchemyError "disk full"),
       mkWorld (calls empty_world ++ reference_queries
                ++ [(execute sql_truncate, None); (commit, None)] ++ attempt)
               (flashes empty_world
                ++ [(success, "Successfully truncated stg_fact_housework_tasks!")])) ∧
    (attempt = [(add record, Some "disk full")]
     ∨ attempt = [(add record, None); (commit, Some "disk full")]).
Proof.
  apply failed_manual_insert_is_not_caught.
  - reflexivity.
  - reflexivity.
  - vm_compute. reflexivity.
  - split; reflexivity.
  - reflexivity.
  - reflexivity.
  - right. split; reflexivity.
Defined.

(** The dictionary of a table in which 'Alice' occurs twice: the later id
    is the one kept. *)
Example renamed_person_resolves_to_the_later_id :
  persons_dict renamed_persons !! "Alice" = Some 3 ∧
  persons_dict renamed_persons !! "Bob" = Some 2 ∧
  persons_dict renamed_persons !! "Carol" = None.
Proof. vm_compute. repeat split; reflexivity. Qed.
